(** * FiberTaskingLib task scheduler (source/task_scheduler.cpp)

    A shallow embedding of the parts of [ftl::TaskScheduler] that decide
    task submission, ready-fiber dispatch, parking on a counter, the
    empty-queue policy and initialisation.

    Conventions of the model.
    - Pointers to fibers, ready-fiber bundles and counters are [nat]
      identifiers; the heap of [ReadyFiberBundle] objects is a [gmap].
    - Thread indices are 32-bit [unsigned] values, modelled as [N].
    - A [WaitFreeQueue] is a list whose head is the owner's end ("bottom"):
      [Push] and [Pop] work at the head, [Steal] takes the last element.
    - [m_tls[i]] is [tls_at s i]; [None] stands for an access past the
      [m_numThreads] elements of the array (undefined behaviour in C++). *)

From Stdlib Require Import ZArith List Bool Lia String.
From stdpp Require Import base gmap list.
Import ListNotations.

Open Scope N_scope.

(** ** Constants *)

Definition kFailedPopAttemptsHeuristic : nat := 25.
Definition kInitErrorDoubleCall : Z := (-30)%Z.
Definition kInitErrorFailedToCreateWorkerThread : Z := (-60)%Z.

(** Modelled from the spec: [kInvalidIndex] and [kNoThreadPinning] are
    declared in the scheduler's header, which is not under src/; both are
    the largest [unsigned] value, 2^32 - 1, so neither is the index of any
    of the at most 2^32 - 1 scheduler threads. *)
Definition kInvalidIndex : N := 4294967295.
Definition kNoThreadPinning : N := 4294967295.

(** ** Data model *)

Module TaskPriority.
(** [enum class TaskPriority]; [Other n] is any other value a caller can
    produce by a cast. *)
Inductive t := High | Normal | Other (n : nat).
End TaskPriority.

Module EmptyQueueBehavior.
Inductive t := Spin | Yield | Sleep.
Definition eqb (a b : t) : bool :=
  match a, b with
  | Spin, Spin | Yield, Yield | Sleep, Sleep => true
  | _, _ => false
  end.
End EmptyQueueBehavior.

Module FiberDestination.
Inductive t := None | ToPool | ToWaiting.
End FiberDestination.

(** Task functions: the private sentinel [ReadyFiberDummyTask] or a user
    function. [Function = None] is a null function pointer. *)
Inductive TaskFunction := ReadyFiberDummyTask | UserFunction (id : nat).

Definition is_dummy (f : option TaskFunction) : bool :=
  match f with Some ReadyFiberDummyTask => true | _ => false end.

Record Task := mkTask { Function : option TaskFunction; ArgData : nat }.

Record TaskBundle := mkTaskBundle {
  TaskToExecute : Task;
  Counter : option nat
}.

Record ReadyFiberBundle := mkReadyFiberBundle {
  Fiber : nat;
  FiberIsSwitched : bool;
  SpinCount : Z
}.

Record ThreadLocalStorage := mkTLS {
  CurrentFiber : nat;
  OldFiber : option nat;
  OldFiberDestination : FiberDestination.t;
  (** the bundle whose [FiberIsSwitched] the pointer designates *)
  OldFiberStoredFlag : option nat;
  HiPriTaskQueue : list TaskBundle;
  LoPriTaskQueue : list TaskBundle;
  HiPriLastSuccessfulSteal : N;
  LoPriLastSuccessfulSteal : N;
  FailedQueuePopAttempts : nat;
  PinnedReadyFibers : list nat
}.

(** Modelled from the spec: the counter object ([BaseCounter], not under
    src/) "holds a current integer value, a lock integer"; [Add(n)] adds
    [n] to the value. *)
Record BaseCounter := mkCounter { m_value : N; m_lock : nat }.

Record TaskScheduler := mkScheduler {
  m_numThreads : N;
  (** the OS thread identifiers, [m_threads[i]] *)
  m_threads : list nat;
  m_tls : list ThreadLocalStorage;
  m_initialized : bool;
  m_emptyQueueBehavior : EmptyQueueBehavior.t;
  m_callbacks : nat;
  (** the heap of [ReadyFiberBundle] objects *)
  m_bundles : gmap nat ReadyFiberBundle;
  (** the counters reachable from [shared_ptr] handles *)
  m_counters : gmap nat BaseCounter;
  (** next fresh heap address, for [new Fiber] and [new ReadyFiberBundle] *)
  m_nextAddress : nat
}.

(** [nullptr] as a fiber pointer, and the fiber object [m_mainFiber]. *)
Definition nullFiber : nat := 0.
Definition m_mainFiber : nat := 1.

(** *** Field updates *)

Definition set_tls (s : TaskScheduler) (l : list ThreadLocalStorage) :=
  mkScheduler (m_numThreads s) (m_threads s) l (m_initialized s)
    (m_emptyQueueBehavior s) (m_callbacks s) (m_bundles s) (m_counters s)
    (m_nextAddress s).

Definition set_bundles (s : TaskScheduler) (b : gmap nat ReadyFiberBundle) :=
  mkScheduler (m_numThreads s) (m_threads s) (m_tls s) (m_initialized s)
    (m_emptyQueueBehavior s) (m_callbacks s) b (m_counters s)
    (m_nextAddress s).

Definition set_counters (s : TaskScheduler) (c : gmap nat BaseCounter) :=
  mkScheduler (m_numThreads s) (m_threads s) (m_tls s) (m_initialized s)
    (m_emptyQueueBehavior s) (m_callbacks s) (m_bundles s) c
    (m_nextAddress s).

Definition set_nextAddress (s : TaskScheduler) (a : nat) :=
  mkScheduler (m_numThreads s) (m_threads s) (m_tls s) (m_initialized s)
    (m_emptyQueueBehavior s) (m_callbacks s) (m_bundles s) (m_counters s) a.

Definition tls_set_hi (t : ThreadLocalStorage) (q : list TaskBundle) :=
  mkTLS (CurrentFiber t) (OldFiber t) (OldFiberDestination t)
    (OldFiberStoredFlag t) q (LoPriTaskQueue t) (HiPriLastSuccessfulSteal t)
    (LoPriLastSuccessfulSteal t) (FailedQueuePopAttempts t)
    (PinnedReadyFibers t).

Definition tls_set_lo (t : ThreadLocalStorage) (q : list TaskBundle) :=
  mkTLS (CurrentFiber t) (OldFiber t) (OldFiberDestination t)
    (OldFiberStoredFlag t) (HiPriTaskQueue t) q (HiPriLastSuccessfulSteal t)
    (LoPriLastSuccessfulSteal t) (FailedQueuePopAttempts t)
    (PinnedReadyFibers t).

Definition tls_set_hi_steal (t : ThreadLocalStorage) (i : N) :=
  mkTLS (CurrentFiber t) (OldFiber t) (OldFiberDestination t)
    (OldFiberStoredFlag t) (HiPriTaskQueue t) (LoPriTaskQueue t) i
    (LoPriLastSuccessfulSteal t) (FailedQueuePopAttempts t)
    (PinnedReadyFibers t).

Definition tls_set_attempts (t : ThreadLocalStorage) (n : nat) :=
  mkTLS (CurrentFiber t) (OldFiber t) (OldFiberDestination t)
    (OldFiberStoredFlag t) (HiPriTaskQueue t) (LoPriTaskQueue t)
    (HiPriLastSuccessfulSteal t) (LoPriLastSuccessfulSteal t) n
    (PinnedReadyFibers t).

Definition tls_set_pinned (t : ThreadLocalStorage) (l : list nat) :=
  mkTLS (CurrentFiber t) (OldFiber t) (OldFiberDestination t)
    (OldFiberStoredFlag t) (HiPriTaskQueue t) (LoPriTaskQueue t)
    (HiPriLastSuccessfulSteal t) (LoPriLastSuccessfulSteal t)
    (FailedQueuePopAttempts t) l.

(** The fiber-switch fields written before a [SwitchToFiber]. *)
Definition tls_set_switch (t : ThreadLocalStorage) (cur : nat) (old : option nat)
    (dest : FiberDestination.t) (flag : option nat) :=
  mkTLS cur old dest flag (HiPriTaskQueue t) (LoPriTaskQueue t)
    (HiPriLastSuccessfulSteal t) (LoPriLastSuccessfulSteal t)
    (FailedQueuePopAttempts t) (PinnedReadyFibers t).

(** *** The [m_tls] array *)

(** [m_tls[i]]; [None] when [i] is past the end of the array. *)
Definition tls_at (s : TaskScheduler) (i : N) : option ThreadLocalStorage :=
  if i <? N.of_nat (length (m_tls s)) then m_tls s !! N.to_nat i else None.

(** [m_tls[i] = f(m_tls[i])]. *)
Definition tls_update (s : TaskScheduler) (i : N)
    (f : ThreadLocalStorage -> ThreadLocalStorage) : TaskScheduler :=
  match tls_at s i with
  | Some t => set_tls s (<[N.to_nat i := f t]> (m_tls s))
  | None => s
  end.

(** *** [WaitFreeQueue<TaskBundle>] *)

Definition Push (x : TaskBundle) (q : list TaskBundle) : list TaskBundle := x :: q.

Definition Pop (q : list TaskBundle) : option (TaskBundle * list TaskBundle) :=
  match q with
  | x :: q' => Some (x, q')
  | [] => None
  end.

Definition Steal (q : list TaskBundle) : option (TaskBundle * list TaskBundle) :=
  match rev q with
  | x :: r => Some (x, rev r)
  | [] => None
  end.

(** ** [GetCurrentThreadIndex] (POSIX and Win32 variants alike) *)

Fixpoint find_thread_index (threads : list nat) (tid : nat) (i n : N) : N :=
  match threads with
  | [] => kInvalidIndex
  | t :: threads' =>
      if i <? n then
        if Nat.eqb t tid then i else find_thread_index threads' tid (i + 1) n
      else kInvalidIndex
  end.

Definition GetCurrentThreadIndex (s : TaskScheduler) (tid : nat) : N :=
  find_thread_index (m_threads s) tid 0 (m_numThreads s).

(** [GetCurrentFiber]: [m_tls[GetCurrentThreadIndex()].CurrentFiber]. *)
Definition GetCurrentFiber (s : TaskScheduler) (tid : nat) : option nat :=
  match tls_at s (GetCurrentThreadIndex s tid) with
  | Some t => Some (CurrentFiber t)
  | None => None
  end.

(** ** Submitting tasks: [AddTask] and [AddTasks] *)

(** The observable effects of a call, in program order. *)
Inductive QueueKind := HiPri | LoPri.

Inductive Effect :=
| CounterAdd (c : nat) (n : N)           (** [counter->Add(n)] *)
| QueuePush (i : N) (q : QueueKind) (b : TaskBundle)
                                         (** [m_tls[i].{Hi,Lo}PriTaskQueue.Push(b)] *)
| NotifyOne                              (** [ThreadSleepCV.notify_one()] *)
| NotifyAll                              (** [ThreadSleepCV.notify_all()] *)
| AssertFailure (msg : string).          (** a failed [FTL_ASSERT]; the program stops *)

Inductive Build := Debug | Release.

(** Modelled from the spec: [FTL_ASSERT] (a macro of the library's headers,
    not under src/). Spec section 7: invalid arguments "are treated as
    programmer errors and raised via an assertion in debug builds; in
    release builds, null task functions are not enqueued". [k] is the rest
    of the call after the check. A failed check stops the call in a debug
    build; in a release build it leaves the call without running [k], the
    one way a check placed before the [Push] can keep the task from being
    enqueued. *)
Definition FTL_ASSERT (build : Build) (msg : string) (cond : bool)
    (k : list Effect) : list Effect :=
  if cond then k
  else match build with
       | Debug => [AssertFailure msg]
       | Release => []
       end.

Definition is_null (f : option TaskFunction) : bool :=
  match f with None => true | Some _ => false end.

Definition sleep_notify (s : TaskScheduler) (e : Effect) : list Effect :=
  if EmptyQueueBehavior.eqb (m_emptyQueueBehavior s) EmptyQueueBehavior.Sleep
  then [e] else [].

(** [threadIndex == kInvalidIndex ? 0 : threadIndex] *)
Definition submit_index (s : TaskScheduler) (tid : nat) : N :=
  let i := GetCurrentThreadIndex s tid in
  if i =? kInvalidIndex then 0 else i.

Definition AddTask (build : Build) (s : TaskScheduler) (tid : nat)
    (task : Task) (priority : TaskPriority.t) (counter : option nat)
    : list Effect :=
  FTL_ASSERT build "Task given to TaskScheduler:AddTask has a nullptr Function"
    (negb (is_null (Function task)))
    ((match counter with Some c => [CounterAdd c 1] | None => [] end) ++
     let threadIndex := submit_index s tid in
     let bundle := mkTaskBundle task counter in
     (match priority with
      | TaskPriority.High => [QueuePush threadIndex HiPri bundle]
      | TaskPriority.Normal => [QueuePush threadIndex LoPri bundle]
      | TaskPriority.Other _ => []
      end) ++
     sleep_notify s NotifyOne).

(** The [for (i = 0; i < numTasks; ++i)] loop of [AddTasks]. *)
Fixpoint push_tasks (build : Build) (threadIndex : N) (q : QueueKind)
    (tasks : list Task) (counter : option nat) (k : list Effect) : list Effect :=
  match tasks with
  | [] => k
  | task :: rest =>
      FTL_ASSERT build "Task given to TaskScheduler:AddTasks has a nullptr Function"
        (negb (is_null (Function task)))
        (QueuePush threadIndex q (mkTaskBundle task counter)
           :: push_tasks build threadIndex q rest counter k)
  end.

(** [AddTasks(numTasks, tasks, priority, counter)] with [numTasks] the
    length of the array [tasks]. *)
Definition AddTasks (build : Build) (s : TaskScheduler) (tid : nat)
    (tasks : list Task) (priority : TaskPriority.t) (counter : option nat)
    : list Effect :=
  (match counter with
   | Some c => [CounterAdd c (N.of_nat (length tasks))]
   | None => []
   end) ++
  let threadIndex := submit_index s tid in
  match priority with
  | TaskPriority.High =>
      push_tasks build threadIndex HiPri tasks counter (sleep_notify s NotifyAll)
  | TaskPriority.Normal =>
      push_tasks build threadIndex LoPri tasks counter (sleep_notify s NotifyAll)
  | TaskPriority.Other _ => FTL_ASSERT build "Unknown task priority" false []
  end.

(** Running the effects on the scheduler state. *)
Definition apply_effect (s : TaskScheduler) (e : Effect) : TaskScheduler :=
  match e with
  | CounterAdd c n =>
      set_counters s (alter (fun k => mkCounter (m_value k + n) (m_lock k)) c
                        (m_counters s))
  | QueuePush i HiPri b => tls_update s i (fun t => tls_set_hi t (Push b (HiPriTaskQueue t)))
  | QueuePush i LoPri b => tls_update s i (fun t => tls_set_lo t (Push b (LoPriTaskQueue t)))
  | _ => s
  end.

Definition run_effects (s : TaskScheduler) (es : list Effect) : TaskScheduler :=
  fold_left apply_effect es s.

(** A call returns normally when no assertion failed. *)
Definition returns_normally (es : list Effect) : bool :=
  forallb (fun e => match e with AssertFailure _ => false | _ => true end) es.

Definition is_push (e : Effect) : bool :=
  match e with QueuePush _ _ _ => true | _ => false end.

(** The bundles a call pushes onto any queue. *)
Definition pushed (es : list Effect) : list TaskBundle :=
  flat_map (fun e => match e with QueuePush _ _ b => [b] | _ => [] end) es.

(** ** Dispatch: ready-fiber test, stealing and the pinned list *)

Definition release_bundle (s : TaskScheduler) (b : nat) : TaskScheduler :=
  set_bundles s (delete b (m_bundles s)).

(** [SpinCount.fetch_sub(1)]: the old value and the decremented bundle. *)
Definition spin_fetch_sub (r : ReadyFiberBundle) : Z * ReadyFiberBundle :=
  (SpinCount r, mkReadyFiberBundle (Fiber r) (FiberIsSwitched r) (SpinCount r - 1)).

(** [TaskIsReadyToExecute]; the second component is the bundle heap after
    the [fetch_sub], which [&&] evaluates only when [FiberIsSwitched] is
    true. A dummy task whose bundle is not on the heap (a dangling pointer)
    does not occur in the scheduler and is reported as not ready. *)
Definition TaskIsReadyToExecute (bs : gmap nat ReadyFiberBundle) (task : TaskBundle)
    : bool * gmap nat ReadyFiberBundle :=
  if negb (is_dummy (Function (TaskToExecute task))) then (true, bs)
  else
    let b := ArgData (TaskToExecute task) in
    match bs !! b with
    | Some r =>
        if FiberIsSwitched r then
          let '(old, r') := spin_fetch_sub r in ((old <=? 0)%Z, <[b := r']> bs)
        else (false, bs)
    | None => (false, bs)
    end.

(** [while (tls.HiPriTaskQueue.Pop(nextTask))] of [GetNextHiPriTask]; [fuel]
    is the queue's length, so the loop runs until the queue is empty. *)
Fixpoint pop_own (fuel : nat) (s : TaskScheduler) (me : N) (buf : list TaskBundle)
    : TaskScheduler * list TaskBundle * option TaskBundle :=
  match fuel with
  | O => (s, buf, None)
  | S fuel' =>
      match tls_at s me with
      | None => (s, buf, None)
      | Some t =>
          match Pop (HiPriTaskQueue t) with
          | None => (s, buf, None)
          | Some (x, q') =>
              let s1 := tls_update s me (fun t => tls_set_hi t q') in
              let '(ready, bs) := TaskIsReadyToExecute (m_bundles s1) x in
              let s2 := set_bundles s1 bs in
              if ready then (s2, buf, Some x)
              else pop_own fuel' s2 me (buf ++ [x])
          end
      end
  end.

(** [while (otherTLS.HiPriTaskQueue.Steal(nextTask))]. *)
Fixpoint steal_from (fuel : nat) (s : TaskScheduler) (me v : N) (buf : list TaskBundle)
    : TaskScheduler * list TaskBundle * option TaskBundle :=
  match fuel with
  | O => (s, buf, None)
  | S fuel' =>
      match tls_at s v with
      | None => (s, buf, None)
      | Some t =>
          match Steal (HiPriTaskQueue t) with
          | None => (s, buf, None)
          | Some (x, q') =>
              let s1 := tls_update s v (fun t => tls_set_hi t q') in
              let s1 := tls_update s1 me (fun t => tls_set_hi_steal t v) in
              let '(ready, bs) := TaskIsReadyToExecute (m_bundles s1) x in
              let s2 := set_bundles s1 bs in
              if ready then (s2, buf, Some x)
              else steal_from fuel' s2 me v (buf ++ [x])
          end
      end
  end.

Definition hi_len (s : TaskScheduler) (i : N) : nat :=
  match tls_at s i with Some t => length (HiPriTaskQueue t) | None => O end.

(** The [for (i = 0; i < m_numThreads; ++i)] loop over the victims
    [(threadIndex + i) % m_numThreads], skipping the current thread. *)
Fixpoint steal_round (victims : list N) (s : TaskScheduler) (me : N)
    (buf : list TaskBundle) : TaskScheduler * list TaskBundle * option TaskBundle :=
  match victims with
  | [] => (s, buf, None)
  | v :: vs =>
      if v =? me then steal_round vs s me buf
      else
        match steal_from (hi_len s v) s me v buf with
        | (s', buf', Some x) => (s', buf', Some x)
        | (s', buf', None) => steal_round vs s' me buf'
        end
  end.

Definition victims (start n : N) : list N :=
  map (fun i => (start + N.of_nat i) mod n) (seq 0 (N.to_nat n)).

(** [cleanup:] push the buffer back, last element first. *)
Definition push_back_buffer (q buf : list TaskBundle) : list TaskBundle :=
  fold_left (fun q x => Push x q) (rev buf) q.

(** [GetNextHiPriTask(nextTask, taskBuffer)] with an empty [taskBuffer] on
    entry (every call leaves it empty). *)
Definition GetNextHiPriTask (s : TaskScheduler) (tid : nat)
    : TaskScheduler * option TaskBundle * list Effect :=
  let me := GetCurrentThreadIndex s tid in
  let '(s1, buf, res) :=
    match pop_own (hi_len s me) s me [] with
    | (s', buf', Some x) => (s', buf', Some x)
    | (s', buf', None) =>
        let start := match tls_at s' me with
                     | Some t => HiPriLastSuccessfulSteal t | None => 0 end in
        steal_round (victims start (m_numThreads s')) s' me buf'
    end in
  match buf with
  | [] => (s1, res, [])
  | _ :: _ =>
      (tls_update s1 me (fun t => tls_set_hi t (push_back_buffer (HiPriTaskQueue t) buf)),
       res, sleep_notify s1 NotifyAll)
  end.

(** [GetNextLoPriTask]: pop once, else one steal from each other thread. *)
Fixpoint steal_lo_round (victims : list N) (s : TaskScheduler) (me : N)
    : TaskScheduler * option TaskBundle :=
  match victims with
  | [] => (s, None)
  | v :: vs =>
      if v =? me then steal_lo_round vs s me
      else
        match tls_at s v with
        | Some t =>
            match Steal (LoPriTaskQueue t) with
            | Some (x, q') =>
                let s1 := tls_update s v (fun t => tls_set_lo t q') in
                (tls_update s1 me (fun t =>
                   mkTLS (CurrentFiber t) (OldFiber t) (OldFiberDestination t)
                     (OldFiberStoredFlag t) (HiPriTaskQueue t) (LoPriTaskQueue t)
                     (HiPriLastSuccessfulSteal t) v (FailedQueuePopAttempts t)
                     (PinnedReadyFibers t)), Some x)
            | None => steal_lo_round vs s me
            end
        | None => steal_lo_round vs s me
        end
  end.

Definition GetNextLoPriTask (s : TaskScheduler) (tid : nat)
    : TaskScheduler * option TaskBundle :=
  let me := GetCurrentThreadIndex s tid in
  match tls_at s me with
  | None => (s, None)
  | Some t =>
      match Pop (LoPriTaskQueue t) with
      | Some (x, q') => (tls_update s me (fun t => tls_set_lo t q'), Some x)
      | None => steal_lo_round (victims (LoPriLastSuccessfulSteal t) (m_numThreads s)) s me
      end
  end.

(** Step 1 of the dispatch loop of [FiberStartFunc]: the scan of
    [PinnedReadyFibers] under [PinnedReadyFibersLock]. An entry is skipped
    ([continue]) when [!FiberIsSwitched && SpinCount.fetch_sub(1) <= 0];
    otherwise its fiber is taken, its bundle released and the entry erased.
    Returns the bundle heap, the fiber taken and the list left behind. *)
Fixpoint scan_pinned (bs : gmap nat ReadyFiberBundle) (l : list nat)
    : gmap nat ReadyFiberBundle * option nat * list nat :=
  match l with
  | [] => (bs, None, [])
  | b :: rest =>
      match bs !! b with
      | None => let '(bs', w, rest') := scan_pinned bs rest in (bs', w, b :: rest')
      | Some r =>
          let '(skip, bs1) :=
            if FiberIsSwitched r then (false, bs)
            else let '(old, r') := spin_fetch_sub r in ((old <=? 0)%Z, <[b := r']> bs) in
          if skip then
            let '(bs', w, rest') := scan_pinned bs1 rest in (bs', w, b :: rest')
          else (delete b bs1, Some (Fiber r), rest)
      end
  end.

(** Steps 1 to 3 of the dispatch loop: the pinned scan, then
    [GetNextHiPriTask] (unwrapping a [ReadyFiberDummyTask]), then
    [GetNextLoPriTask]. [None] is undefined behaviour (an index past
    [m_tls], or a dummy task whose bundle is not on the heap). *)
Record Pick := mkPick {
  pick_state : TaskScheduler;
  waitingFiber : option nat;
  foundTask : bool;
  nextTask : option TaskBundle;
  readyWaitingFibers : bool;
  pick_effects : list Effect
}.

Definition dispatch_pick (s : TaskScheduler) (tid : nat) : option Pick :=
  let me := GetCurrentThreadIndex s tid in
  match tls_at s me with
  | None => None
  | Some t =>
      let readyWaiting := match PinnedReadyFibers t with [] => false | _ => true end in
      let '(bs, w, rest) := scan_pinned (m_bundles s) (PinnedReadyFibers t) in
      let s1 := tls_update (set_bundles s bs) me (fun t => tls_set_pinned t rest) in
      match w with
      | Some f => Some (mkPick s1 (Some f) true None readyWaiting [])
      | None =>
          let '(s2, r, eff) := GetNextHiPriTask s1 tid in
          match r with
          | Some x =>
              if is_dummy (Function (TaskToExecute x)) then
                let b := ArgData (TaskToExecute x) in
                match m_bundles s2 !! b with
                | Some rb => Some (mkPick (release_bundle s2 b) (Some (Fiber rb)) true
                                     (Some x) readyWaiting eff)
                | None => None
                end
              else Some (mkPick s2 None true (Some x) readyWaiting eff)
          | None =>
              let '(s3, r') := GetNextLoPriTask s2 tid in
              Some (mkPick s3 None (bool_decide (is_Some r')) r' readyWaiting eff)
          end
      end
  end.

(** ** The stale-fiber handshake *)

(** [CleanUpOldFiber]: [ToPool] frees the old fiber ([SetFreeFiber]),
    [ToWaiting] stores [true] through [OldFiberStoredFlag]. *)
Definition CleanUpOldFiber (s : TaskScheduler) (tid : nat) : TaskScheduler :=
  let me := GetCurrentThreadIndex s tid in
  match tls_at s me with
  | None => s
  | Some t =>
      match OldFiberDestination t with
      | FiberDestination.ToPool =>
          tls_update s me (fun t => tls_set_switch t (CurrentFiber t) None
                                      FiberDestination.None (OldFiberStoredFlag t))
      | FiberDestination.ToWaiting =>
          let s1 :=
            match OldFiberStoredFlag t with
            | Some b =>
                set_bundles s (alter (fun r => mkReadyFiberBundle (Fiber r) true (SpinCount r))
                                 b (m_bundles s))
            | None => s
            end in
          tls_update s1 me (fun t => tls_set_switch t (CurrentFiber t) None
                                       FiberDestination.None (OldFiberStoredFlag t))
      | FiberDestination.None => s
      end
  end.

(** [AddReadyFiber(pinnedThreadIndex, bundle)]. *)
Definition AddReadyFiber (s : TaskScheduler) (tid : nat) (pinnedThreadIndex : N)
    (bundle : nat) : TaskScheduler * list Effect :=
  if pinnedThreadIndex =? kNoThreadPinning then
    let threadIndex := submit_index s tid in
    let taskBundle := mkTaskBundle (mkTask (Some ReadyFiberDummyTask) bundle) None in
    (tls_update s threadIndex (fun t => tls_set_hi t (Push taskBundle (HiPriTaskQueue t))),
     sleep_notify s NotifyOne)
  else
    (tls_update s pinnedThreadIndex
       (fun t => tls_set_pinned t (PinnedReadyFibers t ++ [bundle])),
     if EmptyQueueBehavior.eqb (m_emptyQueueBehavior s) EmptyQueueBehavior.Sleep
        && negb (GetCurrentThreadIndex s tid =? pinnedThreadIndex)
     then [NotifyAll] else []).

(** How a call to a waiting operation ends. *)
Inductive WaitResult :=
| WaitReturned (s : TaskScheduler)        (** returned to the caller, no switch *)
| WaitSpinning                            (** still in the [m_lock] spin loop *)
| WaitSwitched (s : TaskScheduler) (from to : nat)
                                          (** [from->SwitchToFiber(to)] with state [s] *)
| WaitUndefined.                          (** undefined behaviour *)

(** [new ReadyFiberBundle] filled with [Fiber], [FiberIsSwitched = false]
    and [SpinCount]; returns the bundle's address. *)
Definition CreateFiberBundle (s : TaskScheduler) (f : nat) (spin : Z)
    : TaskScheduler * nat :=
  let b := m_nextAddress s in
  (set_nextAddress (set_bundles s (<[b := mkReadyFiberBundle f false spin]> (m_bundles s)))
     (S b), b).

(** [GetNextFreeFiber]: a freshly allocated fiber. *)
Definition GetNextFreeFiber (s : TaskScheduler) : TaskScheduler * nat :=
  (set_nextAddress s (S (m_nextAddress s)), m_nextAddress s).

(** [while (counter->m_lock.load() > 0) {}] over the successive values
    read; [true] once the loop has exited. *)
Fixpoint lock_drained (reads : list nat) : bool :=
  match reads with
  | [] => false
  | r :: rs => if Nat.ltb 0 r then lock_drained rs else true
  end.

Section Waiting.

(** [counter->AddFiberToWaitingList(bundle, value, pinnedThreadIndex)] lives in
    the counter sources (not under src/); it is any function of the state
    returning [alreadyDone] and the new state, which leaves the length of
    [m_tls] alone. *)
Variable AddFiberToWaitingList :
  TaskScheduler -> nat -> nat -> N -> N -> bool * TaskScheduler.

(** [WaitForCounterInternal(counter, value, pinToCurrentThread)] up to its
    [SwitchToFiber]; [lock_reads] are the values of [counter->m_lock] the
    fast path reads. *)
Definition WaitForCounterInternal (s : TaskScheduler) (tid : nat) (counter : nat)
    (value : N) (pinToCurrentThread : bool) (lock_reads : list nat) : WaitResult :=
  match m_counters s !! counter with
  | None => WaitUndefined
  | Some c =>
      if m_value c =? value then
        if lock_drained lock_reads then WaitReturned s else WaitSpinning
      else
        let me := GetCurrentThreadIndex s tid in
        match tls_at s me with
        | None => WaitUndefined
        | Some tls =>
            let currentFiber := CurrentFiber tls in
            let pinnedThreadIndex :=
              if pinToCurrentThread || Nat.eqb currentFiber m_mainFiber
              then GetCurrentThreadIndex s tid else kNoThreadPinning in
            let '(s1, readyFiberBundle) := CreateFiberBundle s currentFiber 0 in
            let '(alreadyDone, s2) :=
              AddFiberToWaitingList s1 counter readyFiberBundle value pinnedThreadIndex in
            if alreadyDone then WaitReturned (release_bundle s2 readyFiberBundle)
            else
              let '(s3, freeFiber) := GetNextFreeFiber s2 in
              let s4 := tls_update s3 me (fun t =>
                          tls_set_switch t freeFiber (Some currentFiber)
                            FiberDestination.ToWaiting (Some readyFiberBundle)) in
              WaitSwitched s4 currentFiber freeFiber
        end
  end.

End Waiting.

(** [WaitForPredicate(pred, pinToCurrentThread)] up to its first
    [SwitchToFiber]; [pred_result] is the value of the first [pred()]. *)
Definition WaitForPredicate (s : TaskScheduler) (tid : nat) (pred_result : bool)
    (pinToCurrentThread : bool) : WaitResult :=
  let me := GetCurrentThreadIndex s tid in
  match tls_at s me with
  | None => WaitUndefined
  | Some tls =>
      if pred_result then WaitReturned s
      else
        let currentFiber := CurrentFiber tls in
        let pinnedThreadIndex :=
          if pinToCurrentThread || Nat.eqb currentFiber m_mainFiber
          then GetCurrentThreadIndex s tid else kNoThreadPinning in
        let '(s1, readyFiberBundle) := CreateFiberBundle s currentFiber 15 in
        let '(s2, freeFiber) := GetNextFreeFiber s1 in
        let '(s3, _) := AddReadyFiber s2 tid pinnedThreadIndex readyFiberBundle in
        let s4 := tls_update s3 me (fun t =>
                    tls_set_switch t freeFiber (Some currentFiber)
                      FiberDestination.ToWaiting (Some readyFiberBundle)) in
        WaitSwitched s4 currentFiber freeFiber
  end.

(** ** One round of the dispatch loop of [FiberStartFunc] *)

Inductive LoopEvent :=
| LockSleepMutex                     (** [unique_lock lock(ThreadSleepLock)] *)
| UnlockSleepMutex
| LockPinnedReadyFibers              (** [tls->PinnedReadyFibersLock] *)
| UnlockPinnedReadyFibers
| WaitSleepCV                        (** [ThreadSleepCV.wait(lock)] *)
| YieldThreadCall                    (** [YieldThread()] *)
| SwitchFiber (from to : nat)        (** [OldFiber->SwitchToFiber(CurrentFiber)] *)
| RunTask (x : TaskBundle)           (** [Function(taskScheduler, ArgData)] *)
| LoopEffects (es : list Effect).

(** The [else if (!readyWaitingFibers)] branch: the empty-queue policy,
    on the thread's [ThreadLocalStorage] as it is when the branch runs. *)
Definition empty_queue_step (behavior : EmptyQueueBehavior.t) (t : ThreadLocalStorage)
    : ThreadLocalStorage * list LoopEvent :=
  match behavior with
  | EmptyQueueBehavior.Yield =>
      let n := S (FailedQueuePopAttempts t) in
      if Nat.leb kFailedPopAttemptsHeuristic n
      then (tls_set_attempts t 0, [YieldThreadCall])
      else (tls_set_attempts t n, [])
  | EmptyQueueBehavior.Sleep =>
      let n := S (FailedQueuePopAttempts t) in
      if Nat.leb kFailedPopAttemptsHeuristic n then
        match PinnedReadyFibers t with
        | [] => (tls_set_attempts t 0,
                 [LockSleepMutex; LockPinnedReadyFibers; UnlockPinnedReadyFibers;
                  WaitSleepCV; UnlockSleepMutex])
        | _ :: _ => (tls_set_attempts t 0,
                 [LockSleepMutex; LockPinnedReadyFibers; UnlockPinnedReadyFibers;
                  UnlockSleepMutex])
        end
      else (tls_set_attempts t n, [])
  | EmptyQueueBehavior.Spin => (t, [])
  end.

(** One iteration of [while (!m_quit)], as the thread [tid] sees it.
    - A ready waiting fiber [w]: the current fiber is recorded as
      [OldFiber] with destination [ToPool] and the thread switches to [w].
      The statements after that switch (lines 238-249, among them
      [FailedQueuePopAttempts = 0]) belong to the old fiber, which
      [CleanUpOldFiber] frees, so they never run; the thread continues in
      [w], which resumes after its own [SwitchToFiber] in
      [WaitForCounterInternal] or [WaitForPredicate] and calls
      [CleanUpOldFiber].
    - A task: [FailedQueuePopAttempts = 0], then the task runs.
    - Otherwise, unless the pinned list was non-empty, the empty-queue
      policy. *)
Definition loop_body (s : TaskScheduler) (tid : nat)
    : option (TaskScheduler * list LoopEvent) :=
  match dispatch_pick s tid with
  | None => None
  | Some p =>
      let s1 := pick_state p in
      let me := GetCurrentThreadIndex s1 tid in
      match tls_at s1 me with
      | None => None
      | Some t =>
          match waitingFiber p with
          | Some w =>
              let s2 := tls_update s1 me (fun t =>
                          tls_set_switch t w (Some (CurrentFiber t))
                            FiberDestination.ToPool (OldFiberStoredFlag t)) in
              Some (CleanUpOldFiber s2 tid,
                    [LoopEffects (pick_effects p); SwitchFiber (CurrentFiber t) w])
          | None =>
              if foundTask p then
                match nextTask p with
                | Some x => Some (tls_update s1 me (fun t => tls_set_attempts t 0),
                                  [LoopEffects (pick_effects p); RunTask x])
                | None => None
                end
              else if readyWaitingFibers p then Some (s1, [LoopEffects (pick_effects p)])
              else
                let '(t', ev) := empty_queue_step (m_emptyQueueBehavior s1) t in
                Some (tls_update s1 me (fun _ => t'), LoopEffects (pick_effects p) :: ev)
          end
      end
  end.

(** [n] iterations on the thread [tid], with the events of each. *)
Fixpoint loop_iterations (n : nat) (s : TaskScheduler) (tid : nat)
    : option (TaskScheduler * list (list LoopEvent)) :=
  match n with
  | O => Some (s, [])
  | S n' =>
      match loop_body s tid with
      | None => None
      | Some (s1, ev) =>
          match loop_iterations n' s1 tid with
          | None => None
          | Some (s2, evs) => Some (s2, ev :: evs)
          end
      end
  end.

(** ** [Init] *)

Record TaskSchedulerInitOptions := mkInitOptions {
  ThreadPoolSize : N;
  SetAffinity : bool;
  Behavior : EmptyQueueBehavior.t;
  Callbacks : nat
}.

(** A default-constructed [ThreadLocalStorage]. *)
Definition default_tls : ThreadLocalStorage :=
  mkTLS nullFiber None FiberDestination.None None [] [] 0 0 0 [].

Section Init.

(** The platform: [GetNumHardwareThreads()], the calling thread's id
    ([GetCurrentThread()]) and [CreateThread], which gets the worker's index
    and, with [SetAffinity], the core [i % GetNumHardwareThreads()]; it
    returns the new thread's id, or [None] when it fails. *)
Variable GetNumHardwareThreads : N.
Variable GetCurrentThread : nat.
Variable CreateThread : N -> option N -> option nat.

(** [for (unsigned i = 1; i < m_numThreads; ++i)], from [i] with [k]
    iterations left. *)
Fixpoint create_workers (k : nat) (i : N) (setAffinity : bool) (s : TaskScheduler)
    : Z * TaskScheduler :=
  match k with
  | O => (0%Z, s)
  | S k' =>
      let affinity := if setAffinity then Some (i mod GetNumHardwareThreads) else None in
      match CreateThread i affinity with
      | None => (kInitErrorFailedToCreateWorkerThread, s)
      | Some id =>
          create_workers k' (i + 1) setAffinity
            (mkScheduler (m_numThreads s) (<[N.to_nat i := id]> (m_threads s)) (m_tls s)
               (m_initialized s) (m_emptyQueueBehavior s) (m_callbacks s) (m_bundles s)
               (m_counters s) (m_nextAddress s))
      end
  end.

Definition Init (s : TaskScheduler) (options : TaskSchedulerInitOptions)
    : Z * TaskScheduler :=
  if m_initialized s then (kInitErrorDoubleCall, s)
  else
    let n := if ThreadPoolSize options =? 0 then GetNumHardwareThreads
             else ThreadPoolSize options in
    let tls := repeat default_tls (N.to_nat n) in
    let tls := <[0%nat := tls_set_switch default_tls m_mainFiber None
                             FiberDestination.None None]> tls in
    let threads := <[0%nat := GetCurrentThread]> (repeat 0%nat (N.to_nat n)) in
    let s1 := mkScheduler n threads tls false (Behavior options) (Callbacks options)
                (m_bundles s) (m_counters s) (m_nextAddress s) in
    match create_workers (N.to_nat n - 1) 1 (SetAffinity options) s1 with
    | (0%Z, s2) =>
        (0%Z, mkScheduler (m_numThreads s2) (m_threads s2) (m_tls s2) true
                (m_emptyQueueBehavior s2) (m_callbacks s2) (m_bundles s2)
                (m_counters s2) (m_nextAddress s2))
    | (err, s2) => (err, s2)
    end.

End Init.

(** ** Predicates used in the statements *)

(** Every push in [es] comes after a [CounterAdd c n] of [es]. *)
Definition add_precedes_pushes (c : nat) (n : N) (es : list Effect) : Prop :=
  forall j e, es !! j = Some e -> is_push e = true ->
    exists i, (i < j)%nat /\ es !! i = Some (CounterAdd c n).

(** A scheduler state as [Init] leaves it: [m_numThreads] entries in
    [m_threads] and in [m_tls], and [m_numThreads] an [unsigned]. *)
Definition sched_wf (s : TaskScheduler) : Prop :=
  length (m_threads s) = N.to_nat (m_numThreads s) /\
  length (m_tls s) = N.to_nat (m_numThreads s) /\
  m_numThreads s <= kInvalidIndex.

Definition worker_count (hw : N) (options : TaskSchedulerInitOptions) : N :=
  if ThreadPoolSize options =? 0 then hw else ThreadPoolSize options.

Definition affinity_of (hw : N) (options : TaskSchedulerInitOptions) (i : N) : option N :=
  if SetAffinity options then Some (i mod hw) else None.

Definition known_priority (p : TaskPriority.t) : bool :=
  match p with TaskPriority.Other _ => false | _ => true end.

(** A two-thread scheduler (OS threads 100 and 101) with the [Sleep]
    policy and one counter, at address 7, whose value is 3. *)
Definition example_scheduler : TaskScheduler :=
  mkScheduler 2 [100%nat; 101%nat]
    [tls_set_switch default_tls 3 None FiberDestination.None None;
     tls_set_switch default_tls 4 None FiberDestination.None None]
    true EmptyQueueBehavior.Sleep 0 ∅ (<[7%nat := mkCounter 3 0]> ∅) 10.

(** [example_scheduler] before [Init]: not initialised, no threads. *)
Definition uninitialized_scheduler : TaskScheduler :=
  mkScheduler 0 [] [] false EmptyQueueBehavior.Spin 0 ∅ ∅ 10.

Definition example_options : TaskSchedulerInitOptions :=
  mkInitOptions 4 true EmptyQueueBehavior.Sleep 5.

(** [CreateThread] that always succeeds, and one that fails for worker 2. *)
Definition create_ok (i : N) (_ : option N) : option nat := Some (N.to_nat i + 200)%nat.
Definition create_fails_at_2 (i : N) (_ : option N) : option nat :=
  if i =? 2 then None else Some (N.to_nat i + 200)%nat.

(** All entries of all high-priority queues. *)
Definition all_hi (s : TaskScheduler) : list TaskBundle :=
  concat (map HiPriTaskQueue (m_tls s)).

Definition opt_list {A} (o : option A) : list A :=
  match o with Some x => [x] | None => [] end.

(** The scheduler's shape: what the dispatch functions never change. *)
Definition same_shape (s s' : TaskScheduler) : Prop :=
  m_numThreads s' = m_numThreads s /\ m_threads s' = m_threads s /\
  length (m_tls s') = length (m_tls s) /\
  m_emptyQueueBehavior s' = m_emptyQueueBehavior s.

(** [h'] is [h] with some bundles released and some [SpinCount]s changed:
    every bundle of [h'] is in [h] with the same [Fiber] and
    [FiberIsSwitched]. *)
Definition heap_le (h h' : gmap nat ReadyFiberBundle) : Prop :=
  forall b r', h' !! b = Some r' ->
    exists r, h !! b = Some r /\ Fiber r = Fiber r' /\ FiberIsSwitched r = FiberIsSwitched r'.

(** What one pass of the high-priority search preserves, from state [s]
    with buffer [buf] to state [s'] with buffer [buf'] and result [r]:
    entries are only moved, never lost, and a returned entry passed
    [TaskIsReadyToExecute]. *)
Definition dispatch_inv (s : TaskScheduler) (buf : list TaskBundle)
    (s' : TaskScheduler) (buf' : list TaskBundle) (r : option TaskBundle) : Prop :=
  same_shape s s' /\ heap_le (m_bundles s) (m_bundles s') /\
  all_hi s ++ buf ≡ₚ all_hi s' ++ buf' ++ opt_list r /\
  (forall x, r = Some x -> exists bs, heap_le (m_bundles s) bs /\
     TaskIsReadyToExecute bs x = (true, m_bundles s')).

(** The [TaskBundle] that [AddReadyFiber] queues for bundle [b]. *)
Definition dummy_bundle (b : nat) : TaskBundle :=
  mkTaskBundle (mkTask (Some ReadyFiberDummyTask) b) None.

(** [example_scheduler] with thread 0's high-priority queue holding a
    dummy for the unswitched bundle 20 above a real task. *)
Definition search_scheduler : TaskScheduler :=
  set_bundles
    (tls_update example_scheduler 0 (fun t => tls_set_hi t
       [dummy_bundle 20; mkTaskBundle (mkTask (Some (UserFunction 1)) 0) None]))
    (<[20%nat := mkReadyFiberBundle 5 false 15]> ∅).



(** A counter firing on thread 1 ([tid] 101) for the parked fiber 5: its
    bundle 20 is switched and [AddReadyFiber] queues it unpinned. *)
Definition fire_parked_fiber (s : TaskScheduler) : TaskScheduler :=
  fst (AddReadyFiber
         (set_bundles s (<[20%nat := mkReadyFiberBundle 5 true 0]> (m_bundles s)))
         101 kNoThreadPinning 20).

(** The events of the [Sleep] branch that waits on [ThreadSleepCV]. *)
Definition sleep_wait_events : list LoopEvent :=
  [LockSleepMutex; LockPinnedReadyFibers; UnlockPinnedReadyFibers;
   WaitSleepCV; UnlockSleepMutex].

(** The queue a [QueueKind] names, and its update. *)
Definition queue_of (k : QueueKind) (t : ThreadLocalStorage) : list TaskBundle :=
  match k with HiPri => HiPriTaskQueue t | LoPri => LoPriTaskQueue t end.

Definition set_queue (k : QueueKind) (t : ThreadLocalStorage) (q : list TaskBundle) :=
  match k with HiPri => tls_set_hi t q | LoPri => tls_set_lo t q end.

(** The queue [AddTask] and [AddTasks] use for a priority. *)
Definition priority_queue (p : TaskPriority.t) : option QueueKind :=
  match p with
  | TaskPriority.High => Some HiPri
  | TaskPriority.Normal => Some LoPri
  | TaskPriority.Other _ => None
  end.

(** Effects that leave queues and counters alone. *)
Definition inert (es : list Effect) : bool :=
  forallb (fun e => match e with CounterAdd _ _ | QueuePush _ _ _ => false | _ => true end) es.

(** All entries of all low-priority queues. *)
Definition all_lo (s : TaskScheduler) : list TaskBundle :=
  concat (map LoPriTaskQueue (m_tls s)).

(** [n] successive [TaskIsReadyToExecute] tests of the same task, each on
    the bundle heap the previous one left (as when [GetNextHiPriTask] keeps
    meeting the same dummy task). *)
Fixpoint readiness_tests (n : nat) (bs : gmap nat ReadyFiberBundle) (x : TaskBundle)
    : list bool :=
  match n with
  | O => []
  | S n' => let '(ok, bs') := TaskIsReadyToExecute bs x in ok :: readiness_tests n' bs' x
  end.

(** [example_scheduler] with two low-priority tasks queued on thread 1. *)
Definition steal_scheduler : TaskScheduler :=
  tls_update example_scheduler 1 (fun t => tls_set_lo t
    [mkTaskBundle (mkTask (Some (UserFunction 2)) 0) None;
     mkTaskBundle (mkTask (Some (UserFunction 3)) 0) None]).

(** [example_scheduler] with a bundle at address 12 whose fiber 6 has
    switched out and whose [SpinCount] is 0. *)
Definition switched_bundle_scheduler : TaskScheduler :=
  set_bundles example_scheduler (<[12%nat := mkReadyFiberBundle 6 true 0]> ∅).

(** [example_scheduler] with the [Spin] empty-queue behaviour. *)
Definition spin_scheduler : TaskScheduler :=
  mkScheduler 2 [100%nat; 101%nat]
    [tls_set_switch default_tls 3 None FiberDestination.None None;
     tls_set_switch default_tls 4 None FiberDestination.None None]
    true EmptyQueueBehavior.Spin 0 ∅ (<[7%nat := mkCounter 3 0]> ∅) 10.

(** * Properties *)

(** ** Submitting tasks *)

Lemma add_precedes_head c n rest :
  add_precedes_pushes c n (CounterAdd c n :: rest).
Proof.
  intros j e Hj Hp. destruct j as [|j].
  - simpl in Hj. injection Hj as <-. discriminate.
  - exists 0%nat. split; [lia | reflexivity].
Qed.

Lemma add_precedes_no_push c n es :
  forallb (fun e => negb (is_push e)) es = true -> add_precedes_pushes c n es.
Proof.
  intros Hall j e Hj Hp. exfalso.
  apply list_elem_of_lookup_2, list_elem_of_In in Hj.
  rewrite forallb_forall in Hall. specialize (Hall e Hj). rewrite Hp in Hall. discriminate.
Qed.

(** C5. For [AddTask] and [AddTasks] with a counter [c], every push of a
    task bundle comes after [counter->Add(1)] (resp. [Add(numTasks)]) in
    program order. *)
Theorem AddTask_AddTasks_add_before_push :
  forall build s tid c,
    (forall task priority,
       add_precedes_pushes c 1 (AddTask build s tid task priority (Some c))) /\
    (forall tasks priority,
       add_precedes_pushes c (N.of_nat (length tasks))
         (AddTasks build s tid tasks priority (Some c))).
Proof.
  intros build s tid c. split.
  - intros task priority. unfold AddTask, FTL_ASSERT.
    destruct (negb (is_null (Function task))); [apply add_precedes_head|].
    destruct build; apply add_precedes_no_push; reflexivity.
  - intros tasks priority. apply add_precedes_head.
Qed.

Lemma pushed_app es1 es2 : pushed (es1 ++ es2) = pushed es1 ++ pushed es2.
Proof. unfold pushed. apply flat_map_app. Qed.

Lemma push_tasks_no_null build i q tasks counter k b :
  In b (pushed (push_tasks build i q tasks counter k)) ->
  Function (TaskToExecute b) <> None \/ In b (pushed k).
Proof.
  induction tasks as [|t rest IH]; simpl; [auto|].
  unfold FTL_ASSERT. destruct (Function t) as [f|] eqn:Ht; simpl.
  - unfold pushed in *. simpl. intros [<-|Hrest]; [left; simpl; congruence|].
    exact (IH Hrest).
  - destruct build; unfold pushed; simpl; tauto.
Qed.

Lemma push_tasks_debug_no_return i q tasks counter k task :
  Function task = None -> In task tasks ->
  returns_normally (push_tasks Debug i q tasks counter k) = false.
Proof.
  intros Hnull. induction tasks as [|t rest IH]; simpl; [tauto|].
  intros Hin. unfold FTL_ASSERT.
  destruct (Function t) as [f|] eqn:Ht; simpl.
  - destruct Hin as [<-|Hin]; [congruence|]. exact (IH Hin).
  - reflexivity.
Qed.

(** C8 (the release behaviour of [FTL_ASSERT] modelled from the spec). For a
    task whose [Function] is null: in a debug build [AddTask] stops at its
    assertion before anything else and [AddTasks] does not return; in every
    build [AddTask] pushes nothing, and no bundle [AddTasks] pushes holds
    that task (indeed no pushed bundle has a null [Function]). *)
Theorem null_function_asserted_in_debug_not_enqueued :
  forall build s tid task priority counter tasks,
    Function task = None ->
    AddTask Debug s tid task priority counter =
      [AssertFailure "Task given to TaskScheduler:AddTask has a nullptr Function"] /\
    pushed (AddTask build s tid task priority counter) = [] /\
    (In task tasks -> returns_normally (AddTasks Debug s tid tasks priority counter) = false) /\
    (forall b, In b (pushed (AddTasks build s tid tasks priority counter)) ->
       TaskToExecute b <> task).
Proof.
  intros build s tid task priority counter tasks Hnull.
  split; [|split; [|split]].
  - unfold AddTask, FTL_ASSERT. now rewrite Hnull.
  - unfold AddTask, FTL_ASSERT. rewrite Hnull. destruct build; reflexivity.
  - intros Hin. unfold AddTasks.
    unfold returns_normally. rewrite forallb_app, andb_false_iff. right.
    destruct priority; try (apply push_tasks_debug_no_return with (task := task); assumption).
    reflexivity.
  - intros b Hb Heq. unfold AddTasks in Hb. rewrite pushed_app in Hb.
    apply in_app_iff in Hb. destruct Hb as [Hb|Hb].
    { destruct counter; unfold pushed in Hb; simpl in Hb; tauto. }
    assert (Hk : forall e, e = NotifyOne \/ e = NotifyAll -> ~ In b (pushed (sleep_notify s e))).
    { intros e He. unfold sleep_notify, pushed.
      destruct (EmptyQueueBehavior.eqb _ _); destruct He as [->| ->]; simpl; tauto. }
    destruct priority.
    + destruct (push_tasks_no_null _ _ _ _ _ _ _ Hb) as [H|H]; [|exact (Hk _ (or_intror eq_refl) H)].
      apply H. rewrite Heq. exact Hnull.
    + destruct (push_tasks_no_null _ _ _ _ _ _ _ Hb) as [H|H]; [|exact (Hk _ (or_intror eq_refl) H)].
      apply H. rewrite Heq. exact Hnull.
    + unfold FTL_ASSERT, pushed in Hb. destruct build; simpl in Hb; tauto.
Qed.

Lemma run_effects_inert s rest :
  forallb (fun e => match e with CounterAdd _ _ | QueuePush _ _ _ => false | _ => true end) rest = true ->
  fold_left apply_effect rest s = s.
Proof.
  revert s. induction rest as [|e rest IH]; intros s1 Hrest; simpl; [reflexivity|].
  simpl in Hrest. apply andb_true_iff in Hrest as [He Hrest].
  destruct e; try discriminate; apply IH; exact Hrest.
Qed.

Lemma run_effects_counter_add s c k n rest :
  m_counters s !! c = Some k ->
  forallb (fun e => match e with CounterAdd _ _ | QueuePush _ _ _ => false | _ => true end) rest = true ->
  m_tls (run_effects s (CounterAdd c n :: rest)) = m_tls s /\
  m_counters (run_effects s (CounterAdd c n :: rest)) !! c =
    Some (mkCounter (m_value k + n) (m_lock k)).
Proof.
  intros Hk Hrest. unfold run_effects. cbn [fold_left].
  rewrite run_effects_inert by exact Hrest.
  split; [reflexivity|]. simpl. rewrite lookup_alter_eq, Hk. reflexivity.
Qed.

(** C10, counterexample. In a debug build [AddTasks] with an unknown
    priority does not return: its "Unknown task priority" assertion fails. *)
Lemma AddTasks_unknown_priority_asserts_in_debug :
  returns_normally
    (AddTasks Debug example_scheduler 101 [mkTask (Some (UserFunction 1)) 0]
       (TaskPriority.Other 5) (Some 7%nat)) = false.
Proof. vm_compute. reflexivity. Qed.

(** C10, as the code does it. With a priority that is neither [High] nor
    [Normal] and a counter [c]: [AddTask] (for a task with a function)
    adds 1 to the counter, pushes nothing, leaves every queue as it was and
    returns; [AddTasks] adds [numTasks] to the counter, pushes nothing,
    leaves every queue as it was, and then fails its assertion in a debug
    build or returns in a release build. *)
Theorem unknown_priority_counter_added_nothing_pushed :
  forall build s tid c k n task tasks,
    m_counters s !! c = Some k ->
    Function task <> None ->
    let es := AddTask build s tid task (TaskPriority.Other n) (Some c) in
    let es' := AddTasks build s tid tasks (TaskPriority.Other n) (Some c) in
    (pushed es = [] /\ returns_normally es = true /\
     m_tls (run_effects s es) = m_tls s /\
     m_counters (run_effects s es) !! c = Some (mkCounter (m_value k + 1) (m_lock k))) /\
    (pushed es' = [] /\
     returns_normally es' = match build with Debug => false | Release => true end /\
     m_tls (run_effects s es') = m_tls s /\
     m_counters (run_effects s es') !! c =
       Some (mkCounter (m_value k + N.of_nat (length tasks)) (m_lock k))).
Proof.
  intros build s tid c k n task tasks Hk Hf es es'.
  assert (Hes : exists rest, es = CounterAdd c 1 :: rest /\
     forallb (fun e => match e with CounterAdd _ _ | QueuePush _ _ _ => false | _ => true end) rest = true /\
     forallb (fun e => match e with AssertFailure _ => false | _ => true end) rest = true).
  { subst es. unfold AddTask, FTL_ASSERT, sleep_notify.
    destruct (Function task) as [f|]; [|congruence].
    destruct build; simpl;
      destruct (EmptyQueueBehavior.eqb (m_emptyQueueBehavior s) EmptyQueueBehavior.Sleep);
      eexists; split; try reflexivity; split; reflexivity. }
  assert (Hes' : exists rest, es' = CounterAdd c (N.of_nat (length tasks)) :: rest /\
     forallb (fun e => match e with CounterAdd _ _ | QueuePush _ _ _ => false | _ => true end) rest = true /\
     forallb (fun e => match e with AssertFailure _ => false | _ => true end) rest =
       match build with Debug => false | Release => true end).
  { subst es'. unfold AddTasks, FTL_ASSERT. destruct build; simpl;
      eexists; split; try reflexivity; split; reflexivity. }
  destruct Hes as [rest [-> [Hr1 Hr2]]]. destruct Hes' as [rest' [-> [Hr1' Hr2']]].
  destruct (run_effects_counter_add s c k 1 rest Hk Hr1) as [T1 C1].
  destruct (run_effects_counter_add s c k (N.of_nat (length tasks)) rest' Hk Hr1') as [T2 C2].
  assert (Hnp : forall l, forallb (fun e => match e with CounterAdd _ _ | QueuePush _ _ _ => false | _ => true end) l = true -> pushed l = []).
  { induction l as [|e l IH]; simpl; [reflexivity|].
    intros H. apply andb_true_iff in H as [He Hl].
    destruct e; try discriminate; unfold pushed in *; simpl; apply IH; exact Hl. }
  repeat split; try assumption.
  - unfold pushed. simpl. apply Hnp. exact Hr1.
  - unfold pushed. simpl. apply Hnp. exact Hr1'.
Qed.

(** ** [Init] *)

Lemma create_workers_result hw create k i sa s :
  (fst (create_workers hw create k i sa s) = 0%Z /\
   m_initialized (snd (create_workers hw create k i sa s)) = m_initialized s /\
   forall m, (m < k)%nat ->
     create (i + N.of_nat m) (if sa then Some ((i + N.of_nat m) mod hw) else None) <> None) \/
  (fst (create_workers hw create k i sa s) = kInitErrorFailedToCreateWorkerThread /\
   exists m, (m < k)%nat /\
     create (i + N.of_nat m) (if sa then Some ((i + N.of_nat m) mod hw) else None) = None).
Proof.
  revert i s. induction k as [|k IH]; intros i s; simpl.
  - left. repeat split. intros m Hm. lia.
  - destruct (create i (if sa then Some (i mod hw) else None)) as [id|] eqn:Hc.
    + destruct (IH (i + 1) (mkScheduler (m_numThreads s) (<[N.to_nat i:=id]> (m_threads s))
                 (m_tls s) (m_initialized s) (m_emptyQueueBehavior s) (m_callbacks s)
                 (m_bundles s) (m_counters s) (m_nextAddress s)))
        as [[H0 [Hi Hall]] | [H60 [m [Hm Hf]]]].
      * left. split; [exact H0|]. split; [exact Hi|].
        intros [|m] Hm.
        -- rewrite N.add_0_r. congruence.
        -- specialize (Hall m ltac:(lia)).
           replace (i + N.of_nat (S m)) with (i + 1 + N.of_nat m) by lia. exact Hall.
      * right. split; [exact H60|]. exists (S m). split; [lia|].
        replace (i + N.of_nat (S m)) with (i + 1 + N.of_nat m) by lia. exact Hf.
    + right. split; [reflexivity|]. exists 0%nat. split; [lia|].
      rewrite N.add_0_r. exact Hc.
Qed.

(** C7. [Init] returns [-30] and leaves the scheduler untouched when it is
    already initialised; otherwise it returns [0], with the scheduler
    marked initialised, when every worker thread [1 .. numThreads-1] is
    created, and [-60] when the creation of one of them fails. *)
Theorem Init_return_codes :
  forall hw cur create s options,
    (m_initialized s = true ->
       Init hw cur create s options = (kInitErrorDoubleCall, s)) /\
    (m_initialized s = false ->
       ((forall i, 1 <= i < worker_count hw options ->
           create i (affinity_of hw options i) <> None) ->
        fst (Init hw cur create s options) = 0%Z /\
        m_initialized (snd (Init hw cur create s options)) = true) /\
       ((exists i, 1 <= i < worker_count hw options /\
           create i (affinity_of hw options i) = None) ->
        fst (Init hw cur create s options) = kInitErrorFailedToCreateWorkerThread)).
Proof.
  intros hw cur create s options. split.
  - intros H. unfold Init. now rewrite H.
  - intros H. unfold Init. rewrite H.
    fold (worker_count hw options). set (n := worker_count hw options).
    match goal with
    | |- context [create_workers hw create ?k ?i ?sa ?s1] =>
        destruct (create_workers_result hw create k i sa s1) as
          [[H0 [Hi Hall]] | [H60 [m [Hm Hf]]]];
        destruct (create_workers hw create k i sa s1) as [z s2] eqn:Hcw
    end; simpl in *; subst z.
    + split.
      * intros _. split; [reflexivity|reflexivity].
      * intros [i [Hi1 Hf]]. exfalso.
        assert (Hm : (N.to_nat (i - 1) < N.to_nat n - 1)%nat) by lia.
        specialize (Hall _ Hm).
        replace (1 + N.of_nat (N.to_nat (i - 1))) with i in Hall by lia.
        unfold affinity_of in Hf. contradiction.
    + split.
      * intros Hall. exfalso.
        assert (Hr : 1 <= 1 + N.of_nat m < n) by lia.
        specialize (Hall _ Hr). unfold affinity_of in Hall. contradiction.
      * intros _. reflexivity.
Qed.

(** ** [GetCurrentThreadIndex] and the [m_tls] accesses *)

Lemma find_thread_index_spec threads tid i n :
  i + N.of_nat (length threads) <= n ->
  (exists k, threads !! k = Some tid /\ find_thread_index threads tid i n = i + N.of_nat k) \/
  (~ In tid threads /\ find_thread_index threads tid i n = kInvalidIndex).
Proof.
  revert i. induction threads as [|t rest IH]; intros i Hlen; simpl.
  - right. tauto.
  - simpl in Hlen. replace (i <? n) with true by (symmetry; apply N.ltb_lt; lia).
    destruct (Nat.eqb_spec t tid) as [<-|Hne].
    + left. exists 0%nat. split; [reflexivity|lia].
    + destruct (IH (i + 1) ltac:(lia)) as [[k [Hk Hf]] | [Hni Hf]].
      * left. exists (S k). split; [exact Hk|]. rewrite Hf. lia.
      * right. split; [|exact Hf]. intros [->|Hin]; [congruence|tauto].
Qed.

Lemma tls_at_Some s i :
  (i < N.of_nat (length (m_tls s)))%N ->
  exists t, tls_at s i = Some t.
Proof.
  intros Hi. unfold tls_at. replace (i <? N.of_nat (length (m_tls s))) with true
    by (symmetry; apply N.ltb_lt; exact Hi).
  destruct (m_tls s !! N.to_nat i) as [t|] eqn:E; [eauto|].
  apply lookup_ge_None in E. lia.
Qed.

Lemma tls_at_None s i :
  (N.of_nat (length (m_tls s)) <= i)%N -> tls_at s i = None.
Proof.
  intros Hi. unfold tls_at.
  replace (i <? N.of_nat (length (m_tls s))) with false
    by (symmetry; apply N.ltb_ge; exact Hi). reflexivity.
Qed.

Lemma GetCurrentThreadIndex_spec s tid :
  sched_wf s ->
  (In tid (m_threads s) /\ exists t, tls_at s (GetCurrentThreadIndex s tid) = Some t) \/
  (~ In tid (m_threads s) /\ GetCurrentThreadIndex s tid = kInvalidIndex /\
   tls_at s kInvalidIndex = None).
Proof.
  intros [Hth [Htls Hn]]. unfold GetCurrentThreadIndex.
  destruct (find_thread_index_spec (m_threads s) tid 0 (m_numThreads s) ltac:(lia))
    as [[k [Hk Hf]] | [Hni Hf]].
  - left. split.
    + apply list_elem_of_In. eapply list_elem_of_lookup_2. exact Hk.
    + rewrite Hf. apply tls_at_Some.
      apply lookup_lt_Some in Hk. lia.
  - right. split; [exact Hni|]. split; [exact Hf|].
    apply tls_at_None. lia.
Qed.

(** C9. [GetCurrentFiber], [WaitForCounterInternal] and [WaitForPredicate]
    index [m_tls] with [GetCurrentThreadIndex()] unchecked: the access is in
    bounds exactly when the calling thread is one of the scheduler's
    threads; from any other thread the index is [kInvalidIndex], past the
    end of [m_tls], and the calls reach that out-of-bounds access. *)
Theorem current_thread_tls_access_in_bounds_iff :
  forall s tid,
    sched_wf s ->
    (GetCurrentFiber s tid <> None <-> In tid (m_threads s)) /\
    (~ In tid (m_threads s) ->
       GetCurrentThreadIndex s tid = kInvalidIndex /\
       tls_at s kInvalidIndex = None /\
       (forall pred_result pin, WaitForPredicate s tid pred_result pin = WaitUndefined) /\
       (forall add counter value pin reads k,
          m_counters s !! counter = Some k -> m_value k <> value ->
          WaitForCounterInternal add s tid counter value pin reads = WaitUndefined)).
Proof.
  intros s tid Hwf.
  destruct (GetCurrentThreadIndex_spec s tid Hwf)
    as [[Hin [t Ht]] | [Hni [Hidx Hnone]]].
  - split.
    + unfold GetCurrentFiber. rewrite Ht. split; [intros _; exact Hin|discriminate].
    + intros Hni. contradiction.
  - split.
    + unfold GetCurrentFiber. rewrite Hidx, Hnone. split; [tauto|intros Hin; contradiction].
    + intros _. split; [exact Hidx|]. split; [exact Hnone|]. split.
      * intros pr pin. unfold WaitForPredicate. rewrite Hidx, Hnone. reflexivity.
      * intros add counter value pin reads k Hk Hv. unfold WaitForCounterInternal.
        rewrite Hk. replace (m_value k =? value) with false
          by (symmetry; apply N.eqb_neq; exact Hv).
        rewrite Hidx, Hnone. reflexivity.
Qed.

(** ** Dispatch infrastructure *)

Lemma tls_at_inv s i t :
  tls_at s i = Some t ->
  (i < N.of_nat (length (m_tls s)))%N /\ m_tls s !! N.to_nat i = Some t.
Proof.
  unfold tls_at. destruct (N.ltb_spec i (N.of_nat (length (m_tls s)))); [auto|discriminate].
Qed.

Lemma tls_at_is_Some s i :
  is_Some (tls_at s i) <-> (i < N.of_nat (length (m_tls s)))%N.
Proof.
  split.
  - intros [t Ht]. apply (tls_at_inv _ _ _ Ht).
  - intros Hi. destruct (tls_at_Some s i Hi) as [t Ht]. eauto.
Qed.

Lemma tls_update_length s i f :
  length (m_tls (tls_update s i f)) = length (m_tls s).
Proof. unfold tls_update. destruct (tls_at s i); simpl; [apply length_insert|reflexivity]. Qed.

Lemma tls_at_update_eq s i f t :
  tls_at s i = Some t -> tls_at (tls_update s i f) i = Some (f t).
Proof.
  intros Ht. destruct (tls_at_inv _ _ _ Ht) as [Hi Hl].
  unfold tls_update. rewrite Ht. unfold tls_at. simpl. rewrite length_insert.
  replace (i <? N.of_nat (length (m_tls s))) with true by (symmetry; apply N.ltb_lt; exact Hi).
  apply list_lookup_insert_eq. apply lookup_lt_Some in Hl. exact Hl.
Qed.

Lemma tls_at_update_ne s i j f :
  i <> j -> tls_at (tls_update s i f) j = tls_at s j.
Proof.
  intros Hij. unfold tls_update. destruct (tls_at s i); [|reflexivity].
  unfold tls_at. simpl. rewrite length_insert.
  destruct (j <? N.of_nat (length (m_tls s))); [|reflexivity].
  apply list_lookup_insert_ne. lia.
Qed.

Lemma same_shape_refl s : same_shape s s.
Proof. repeat split. Qed.

Lemma same_shape_trans s1 s2 s3 :
  same_shape s1 s2 -> same_shape s2 s3 -> same_shape s1 s3.
Proof. unfold same_shape. intros (?&?&?&?) (?&?&?&?). repeat split; congruence. Qed.

Lemma same_shape_update s i f : same_shape s (tls_update s i f).
Proof.
  unfold same_shape. rewrite tls_update_length.
  unfold tls_update. destruct (tls_at s i); repeat split.
Qed.

Lemma same_shape_bundles s b : same_shape s (set_bundles s b).
Proof. repeat split. Qed.

Lemma same_shape_tls_at s s' i :
  same_shape s s' -> is_Some (tls_at s i) -> is_Some (tls_at s' i).
Proof.
  intros (_&_&Hl&_). rewrite !tls_at_is_Some. rewrite Hl. tauto.
Qed.

Lemma GetCurrentThreadIndex_shape s s' tid :
  same_shape s s' -> GetCurrentThreadIndex s' tid = GetCurrentThreadIndex s tid.
Proof. intros (Hn&Ht&_&_). unfold GetCurrentThreadIndex. now rewrite Hn, Ht. Qed.

Lemma heap_le_refl h : heap_le h h.
Proof. intros b r' H. eauto. Qed.

Lemma heap_le_trans h1 h2 h3 : heap_le h1 h2 -> heap_le h2 h3 -> heap_le h1 h3.
Proof.
  intros H12 H23 b r3 H3. destruct (H23 b r3 H3) as (r2&H2&F2&S2).
  destruct (H12 b r2 H2) as (r1&H1&F1&S1). exists r1. repeat split; congruence.
Qed.

Lemma heap_le_spin h b r :
  h !! b = Some r -> heap_le h (<[b := snd (spin_fetch_sub r)]> h).
Proof.
  intros Hb b' r' H. destruct (decide (b = b')) as [<-|Hne].
  - rewrite lookup_insert_eq in H. injection H as <-. exists r. auto.
  - rewrite lookup_insert_ne in H by exact Hne. eauto.
Qed.


Lemma TaskIsReadyToExecute_heap bs x : heap_le bs (snd (TaskIsReadyToExecute bs x)).
Proof.
  unfold TaskIsReadyToExecute. destruct (negb _); [apply heap_le_refl|].
  destruct (bs !! ArgData (TaskToExecute x)) as [r|] eqn:Hr; [|apply heap_le_refl].
  destruct (FiberIsSwitched r); [|apply heap_le_refl].
  apply (heap_le_spin _ _ _ Hr).
Qed.

Lemma concat_map_insert_perm (l : list ThreadLocalStorage) k t t' :
  l !! k = Some t ->
  concat (map HiPriTaskQueue (<[k:=t']> l)) ++ HiPriTaskQueue t ≡ₚ
  concat (map HiPriTaskQueue l) ++ HiPriTaskQueue t'.
Proof.
  revert k. induction l as [|x l IH]; intros [|k] Hk; simpl in *; try discriminate.
  - injection Hk as ->. solve_Permutation.
  - rewrite <- !app_assoc. apply Permutation_app_head. apply IH. exact Hk.
Qed.

Lemma all_hi_update s i f t :
  tls_at s i = Some t ->
  all_hi (tls_update s i f) ++ HiPriTaskQueue t ≡ₚ all_hi s ++ HiPriTaskQueue (f t).
Proof.
  intros Ht. unfold tls_update. rewrite Ht. unfold all_hi. simpl.
  apply concat_map_insert_perm. apply (tls_at_inv _ _ _ Ht).
Qed.

Lemma all_hi_update_keep s i f :
  (forall t, HiPriTaskQueue (f t) = HiPriTaskQueue t) ->
  all_hi (tls_update s i f) ≡ₚ all_hi s.
Proof.
  intros Hf. destruct (tls_at s i) as [t|] eqn:Ht.
  - pose proof (all_hi_update s i f t Ht) as H. rewrite Hf in H.
    eapply Permutation_app_inv_r. exact H.
  - unfold tls_update. rewrite Ht. reflexivity.
Qed.

Lemma Steal_perm q x q' : Steal q = Some (x, q') -> q ≡ₚ x :: q'.
Proof.
  unfold Steal. destruct (rev q) as [|y r] eqn:E; [discriminate|].
  intros H. injection H as <- <-.
  rewrite <- (rev_involutive q), E. simpl. rewrite Permutation_app_comm. reflexivity.
Qed.

Lemma push_back_buffer_app q buf : push_back_buffer q buf = buf ++ q.
Proof.
  unfold push_back_buffer.
  assert (H : forall l q, fold_left (fun q x => Push x q) l q = rev l ++ q).
  { induction l as [|y l IH]; intros q0; simpl; [reflexivity|].
    rewrite IH. unfold Push. rewrite <- app_assoc. reflexivity. }
  rewrite H, rev_involutive. reflexivity.
Qed.

Lemma m_bundles_tls_update s i f : m_bundles (tls_update s i f) = m_bundles s.
Proof. unfold tls_update. destruct (tls_at s i); reflexivity. Qed.

Lemma all_hi_take s i t x q' :
  tls_at s i = Some t -> HiPriTaskQueue t ≡ₚ x :: q' ->
  all_hi s ≡ₚ x :: all_hi (tls_update s i (fun t => tls_set_hi t q')).
Proof.
  intros Ht Hq. pose proof (all_hi_update s i (fun t => tls_set_hi t q') t Ht) as H.
  simpl in H. rewrite Hq in H. apply (Permutation_app_inv_r q').
  rewrite <- H. solve_Permutation.
Qed.

Lemma dispatch_inv_done s buf : dispatch_inv s buf s buf None.
Proof.
  split; [apply same_shape_refl|split; [apply heap_le_refl|split]].
  - simpl. rewrite app_nil_r. reflexivity.
  - intros x Hx. discriminate.
Qed.

(** One tested entry [x], taken from the queues of [s] to give [s1]. *)
Lemma dispatch_inv_step s s1 buf x s' buf' r ready bs :
  same_shape s s1 -> m_bundles s1 = m_bundles s -> all_hi s ≡ₚ x :: all_hi s1 ->
  TaskIsReadyToExecute (m_bundles s1) x = (ready, bs) ->
  (if ready then s' = set_bundles s1 bs /\ buf' = buf /\ r = Some x
   else dispatch_inv (set_bundles s1 bs) (buf ++ [x]) s' buf' r) ->
  dispatch_inv s buf s' buf' r.
Proof.
  intros Hsh Hb Hall Hr Hk.
  pose proof (TaskIsReadyToExecute_heap (m_bundles s1) x) as Hh. rewrite Hr in Hh. simpl in Hh.
  rewrite Hb in Hh, Hr.
  destruct ready.
  - destruct Hk as (-> & -> & ->).
    split; [eapply same_shape_trans; [exact Hsh|apply same_shape_bundles]|].
    split; [exact Hh|split].
    + unfold all_hi in *. simpl. rewrite Hall. simpl. solve_Permutation.
    + intros y Hy. injection Hy as <-. exists (m_bundles s). split; [apply heap_le_refl|exact Hr].
  - destruct Hk as (Hsh' & Hh' & Hall' & Hready).
    split; [eapply same_shape_trans; [exact Hsh|];
            eapply same_shape_trans; [apply same_shape_bundles|exact Hsh']|].
    split; [eapply heap_le_trans; [exact Hh|exact Hh']|split].
    + rewrite <- Hall'. unfold all_hi in *. simpl. rewrite Hall. solve_Permutation.
    + intros y Hy. destruct (Hready y Hy) as (bs' & Hle & Hr').
      exists bs'. split; [eapply heap_le_trans; [exact Hh|exact Hle]|exact Hr'].
Qed.

Lemma pop_own_spec fuel s me buf s' buf' r :
  pop_own fuel s me buf = (s', buf', r) -> dispatch_inv s buf s' buf' r.
Proof.
  revert s buf. induction fuel as [|fuel IH]; intros s buf H; simpl in H.
  - injection H as <- <- <-. apply dispatch_inv_done.
  - destruct (tls_at s me) as [t|] eqn:Ht;
      [|injection H as <- <- <-; apply dispatch_inv_done].
    destruct (Pop (HiPriTaskQueue t)) as [[x q']|] eqn:Hp;
      [|injection H as <- <- <-; apply dispatch_inv_done].
    destruct (TaskIsReadyToExecute _ x) as [ready bs] eqn:Hr.
    eapply dispatch_inv_step; [apply same_shape_update|apply m_bundles_tls_update| |exact Hr|].
    + apply (all_hi_take _ _ t); [exact Ht|].
      destruct (HiPriTaskQueue t); simpl in Hp; [discriminate|]. injection Hp as -> ->. reflexivity.
    + destruct ready; [injection H as <- <- <-; auto|apply IH; exact H].
Qed.

Lemma steal_from_spec fuel s me v buf s' buf' r :
  steal_from fuel s me v buf = (s', buf', r) -> dispatch_inv s buf s' buf' r.
Proof.
  revert s buf. induction fuel as [|fuel IH]; intros s buf H; simpl in H.
  - injection H as <- <- <-. apply dispatch_inv_done.
  - destruct (tls_at s v) as [t|] eqn:Ht;
      [|injection H as <- <- <-; apply dispatch_inv_done].
    destruct (Steal (HiPriTaskQueue t)) as [[x q']|] eqn:Hp;
      [|injection H as <- <- <-; apply dispatch_inv_done].
    destruct (TaskIsReadyToExecute _ x) as [ready bs] eqn:Hr.
    eapply dispatch_inv_step; [| | |exact Hr|].
    + eapply same_shape_trans; apply same_shape_update.
    + rewrite !m_bundles_tls_update. reflexivity.
    + rewrite all_hi_update_keep by reflexivity.
      apply (all_hi_take _ _ t); [exact Ht|]. apply Steal_perm. exact Hp.
    + destruct ready; [injection H as <- <- <-; auto|apply IH; exact H].
Qed.

Lemma dispatch_inv_trans s buf s1 buf1 s' buf' r :
  dispatch_inv s buf s1 buf1 None -> dispatch_inv s1 buf1 s' buf' r ->
  dispatch_inv s buf s' buf' r.
Proof.
  intros (Hsh & Hh & Hall & _) (Hsh' & Hh' & Hall' & Hready).
  split; [eapply same_shape_trans; eauto|].
  split; [eapply heap_le_trans; eauto|split].
  - rewrite Hall. simpl. rewrite app_nil_r. exact Hall'.
  - intros y Hy. destruct (Hready y Hy) as (bs & Hle & Hr).
    exists bs. split; [eapply heap_le_trans; eauto|exact Hr].
Qed.

Lemma steal_round_spec vs s me buf s' buf' r :
  steal_round vs s me buf = (s', buf', r) -> dispatch_inv s buf s' buf' r.
Proof.
  revert s buf. induction vs as [|v vs IH]; intros s buf H; simpl in H.
  - injection H as <- <- <-. apply dispatch_inv_done.
  - destruct (v =? me); [apply IH; exact H|].
    destruct (steal_from (hi_len s v) s me v buf) as [[s1 buf1] [x|]] eqn:Hs.
    + injection H as <- <- <-. eapply steal_from_spec. exact Hs.
    + eapply dispatch_inv_trans; [eapply steal_from_spec; exact Hs|apply IH; exact H].
Qed.

Lemma GetNextHiPriTask_spec s tid s' r es :
  is_Some (tls_at s (GetCurrentThreadIndex s tid)) ->
  GetNextHiPriTask s tid = (s', r, es) ->
  same_shape s s' /\ heap_le (m_bundles s) (m_bundles s') /\
  all_hi s ≡ₚ all_hi s' ++ opt_list r /\
  (forall x, r = Some x -> exists bs, heap_le (m_bundles s) bs /\
     TaskIsReadyToExecute bs x = (true, m_bundles s')).
Proof.
  intros Hme H. unfold GetNextHiPriTask in H.
  set (me := GetCurrentThreadIndex s tid) in *.
  destruct (match pop_own (hi_len s me) s me [] with
            | (s', buf', Some x) => (s', buf', Some x)
            | (s', buf', None) => _ end) as [[s1 buf] res] eqn:E.
  assert (Hinv : dispatch_inv s [] s1 buf res).
  { revert E. destruct (pop_own (hi_len s me) s me []) as [[s2 buf2] [x|]] eqn:Hp; intros E.
    - injection E as <- <- <-. eapply pop_own_spec. exact Hp.
    - eapply dispatch_inv_trans; [eapply pop_own_spec; exact Hp|].
      eapply steal_round_spec. exact E. }
  destruct Hinv as (Hsh & Hh & Hall & Hready).
  rewrite app_nil_r in Hall.
  destruct buf as [|y buf].
  - injection H as <- <- <-. split; [exact Hsh|split; [exact Hh|split; [exact Hall|exact Hready]]].
  - injection H as <- <- <-.
    destruct (same_shape_tls_at s s1 me Hsh Hme) as [t1 Ht1].
    pose proof (all_hi_update s1 me
      (fun t => tls_set_hi t (push_back_buffer (HiPriTaskQueue t) (y :: buf))) t1 Ht1) as Hu.
    simpl in Hu. rewrite push_back_buffer_app in Hu.
    set (s2 := tls_update s1 me _) in *.
    split; [eapply same_shape_trans; [exact Hsh|apply same_shape_update]|].
    unfold s2. rewrite m_bundles_tls_update. fold s2.
    split; [exact Hh|split; [|exact Hready]].
    rewrite Hall. apply (Permutation_app_inv_r (HiPriTaskQueue t1)).
    transitivity ((all_hi s2 ++ HiPriTaskQueue t1) ++ opt_list res);
      [rewrite Hu|]; solve_Permutation.
Qed.

(** ** C3: the readiness test *)

(** Claim C3 (counterexample): a ready-fiber dummy whose bundle is switched
    but whose [SpinCount] is still 15 is not ready, although its
    [FiberIsSwitched] is true: [TaskIsReadyToExecute] joins the two
    conditions with [&&], not [||]. *)
Lemma TaskIsReadyToExecute_switched_spinning_not_ready :
  TaskIsReadyToExecute (<[5%nat := mkReadyFiberBundle 3 true 15]> ∅) (dummy_bundle 5) =
  (false, <[5%nat := mkReadyFiberBundle 3 true 14]> ∅).
Proof. reflexivity. Qed.

(** Claim C3 (amended): a real task (any task function other than
    [ReadyFiberDummyTask], including none) is always ready and leaves the
    bundles alone; a ready-fiber dummy is ready exactly when its bundle's
    [FiberIsSwitched] is true AND its [SpinCount], read by the
    [fetch_sub(1)], is at most 0, the decrement happening only on a
    switched bundle. [GetNextHiPriTask] puts every entry it pops or steals
    through this test: the entry it returns passed it, and every other
    entry is still in some high-priority queue. *)
Theorem TaskIsReadyToExecute_and_GetNextHiPriTask s tid s' r es :
  is_Some (tls_at s (GetCurrentThreadIndex s tid)) ->
  GetNextHiPriTask s tid = (s', r, es) ->
  (forall bs x, is_dummy (Function (TaskToExecute x)) = false ->
     TaskIsReadyToExecute bs x = (true, bs)) /\
  (forall bs b rb, bs !! b = Some rb ->
     TaskIsReadyToExecute bs (dummy_bundle b) =
     (FiberIsSwitched rb && (SpinCount rb <=? 0)%Z,
      if FiberIsSwitched rb then <[b := snd (spin_fetch_sub rb)]> bs else bs)) /\
  all_hi s ≡ₚ all_hi s' ++ opt_list r /\
  (forall x, r = Some x -> exists bs, heap_le (m_bundles s) bs /\
     TaskIsReadyToExecute bs x = (true, m_bundles s')).
Proof.
  intros Hme H.
  destruct (GetNextHiPriTask_spec s tid s' r es Hme H) as (_ & _ & Hall & Hready).
  split; [|split; [|split; [exact Hall|exact Hready]]].
  - intros bs x Hx. unfold TaskIsReadyToExecute. rewrite Hx. reflexivity.
  - intros bs b rb Hb. unfold TaskIsReadyToExecute. simpl. rewrite Hb.
    destruct (FiberIsSwitched rb); reflexivity.
Qed.

(** ** C2: the pinned-ready scan *)


(** ** C4: the outcomes of [WaitForCounterInternal] *)

Lemma lock_drained_spec reads : lock_drained reads = true <-> In 0%nat reads.
Proof.
  induction reads as [|r rs IH]; simpl; [split; [discriminate|tauto]|].
  destruct (Nat.ltb_spec 0 r).
  - rewrite IH. split; [tauto|intros [->|H']; [lia|exact H']].
  - split; [intros _; left; lia|reflexivity].
Qed.

(** Claim C4: for a counter on the heap and a current thread with a TLS
    slot, [WaitForCounterInternal] returns without a switch exactly
    (a) on the fast path, when the counter's value equals the target: it
    returns once a read of [m_lock] gives 0 (before that it spins), and
    the state is untouched, so no bundle is created; or (b) when
    [AddFiberToWaitingList] returns true for the new bundle, which is then
    released. Otherwise the bundle handed to [AddFiberToWaitingList]
    records the calling fiber (unswitched, [SpinCount] 0), and the thread
    switches from the calling fiber to a fiber from [GetNextFreeFiber],
    with [OldFiber] the calling fiber, [OldFiberDestination] [ToWaiting]
    and [OldFiberStoredFlag] the bundle. *)
Theorem WaitForCounterInternal_outcomes AddFiberToWaitingList s tid counter value
    pinToCurrentThread reads c t :
  m_counters s !! counter = Some c ->
  tls_at s (GetCurrentThreadIndex s tid) = Some t ->
  (forall s' cn b v p, length (m_tls (snd (AddFiberToWaitingList s' cn b v p))) =
                       length (m_tls s')) ->
  let s1 := fst (CreateFiberBundle s (CurrentFiber t) 0) in
  let b := m_nextAddress s in
  let pinned := if pinToCurrentThread || Nat.eqb (CurrentFiber t) m_mainFiber
                then GetCurrentThreadIndex s tid else kNoThreadPinning in
  m_bundles s1 !! b = Some (mkReadyFiberBundle (CurrentFiber t) false 0) /\
  match WaitForCounterInternal AddFiberToWaitingList s tid counter value
          pinToCurrentThread reads with
  | WaitReturned s' =>
      (m_value c = value /\ In 0%nat reads /\ s' = s) \/
      (m_value c <> value /\ exists s2,
         AddFiberToWaitingList s1 counter b value pinned = (true, s2) /\
         s' = release_bundle s2 b /\ m_bundles s' !! b = None)
  | WaitSpinning => m_value c = value /\ ~ In 0%nat reads
  | WaitSwitched s' from to =>
      m_value c <> value /\ from = CurrentFiber t /\ exists s2 t',
        AddFiberToWaitingList s1 counter b value pinned = (false, s2) /\
        to = snd (GetNextFreeFiber s2) /\
        tls_at s' (GetCurrentThreadIndex s tid) = Some t' /\
        CurrentFiber t' = to /\ OldFiber t' = Some from /\
        OldFiberDestination t' = FiberDestination.ToWaiting /\
        OldFiberStoredFlag t' = Some b
  | WaitUndefined => False
  end.
Proof.
  intros Hc Ht Hlen s1 b pinned.
  split; [apply lookup_insert_eq|].
  unfold WaitForCounterInternal. rewrite Hc.
  destruct (N.eqb_spec (m_value c) value) as [Heq|Hne].
  - destruct (lock_drained reads) eqn:Hd.
    + left. rewrite <- lock_drained_spec. auto.
    + split; [exact Heq|]. rewrite <- lock_drained_spec, Hd. discriminate.
  - rewrite Ht. fold pinned. unfold CreateFiberBundle at 1. fold b.
    change (set_nextAddress _ (S b)) with s1.
    destruct (AddFiberToWaitingList s1 counter b value pinned) as [done s2] eqn:Ha.
    destruct done.
    + right. split; [exact Hne|]. exists s2. split; [reflexivity|split; [reflexivity|]].
      apply lookup_delete_eq.
    + split; [exact Hne|split; [reflexivity|]].
      assert (Hl : length (m_tls s2) = length (m_tls s)).
      { pose proof (Hlen s1 counter b value pinned) as H. rewrite Ha in H. exact H. }
      assert (Hs3 : is_Some (tls_at (fst (GetNextFreeFiber s2)) (GetCurrentThreadIndex s tid))).
      { apply tls_at_is_Some. simpl. rewrite Hl. apply tls_at_is_Some. eauto. }
      destruct Hs3 as [t3 Ht3].
      eexists s2, _. split; [reflexivity|split; [reflexivity|]].
      simpl in Ht3 |- *. split; [apply tls_at_update_eq; exact Ht3|].
      repeat split.
Qed.

(** ** C6: going to sleep *)

(** Claim C6 (code bug): the empty-queue policy waits on [ThreadSleepCV]
    only under [Sleep], when the incremented [FailedQueuePopAttempts]
    reaches 25, with the sleep mutex and then [PinnedReadyFibersLock]
    taken and the pinned list empty. But the count is not reset when the
    worker resumes a ready waiting fiber: the reset follows the switch in
    the old fiber, which [CleanUpOldFiber] frees. On [example_scheduler]
    worker 0 fails 24 rounds, then resumes fiber 5 (stolen from worker 1's
    queue), and waits on the condition variable after one more failed
    round. *)
Theorem sleep_after_one_failed_attempt_following_resume :
  (forall b t, In WaitSleepCV (snd (empty_queue_step b t)) ->
     b = EmptyQueueBehavior.Sleep /\
     (kFailedPopAttemptsHeuristic <= S (FailedQueuePopAttempts t))%nat /\
     PinnedReadyFibers t = [] /\ snd (empty_queue_step b t) = sleep_wait_events) /\
  exists s24 s1 s2,
    loop_iterations 24 example_scheduler 100 = Some (s24, repeat [LoopEffects []] 24) /\
    loop_body (fire_parked_fiber s24) 100 = Some (s1, [LoopEffects []; SwitchFiber 3 5]) /\
    loop_body s1 100 = Some (s2, LoopEffects [] :: sleep_wait_events).
Proof.
  split.
  - intros b t H. unfold empty_queue_step in *. cbv zeta in *.
    destruct b.
    + simpl in H. contradiction.
    + destruct (Nat.leb kFailedPopAttemptsHeuristic (S (FailedQueuePopAttempts t)));
        simpl in H; intuition discriminate.
    + destruct (Nat.leb kFailedPopAttemptsHeuristic (S (FailedQueuePopAttempts t))) eqn:Hle;
        [|simpl in H; contradiction].
      apply Nat.leb_le in Hle.
      destruct (PinnedReadyFibers t); simpl in H; [|intuition discriminate].
      repeat split; auto.
  - do 3 eexists. split; [vm_compute; reflexivity|split; vm_compute; reflexivity].
Qed.

(** ** C1: publishing and taking ready fibers *)







(** * Further properties *)

(** ** Running submitted effects *)

Lemma tls_at_same_tls s s0 i : m_tls s = m_tls s0 -> tls_at s i = tls_at s0 i.
Proof. intros H. unfold tls_at. rewrite H. reflexivity. Qed.

Lemma apply_effect_tls s s0 e :
  m_tls s = m_tls s0 -> m_tls (apply_effect s e) = m_tls (apply_effect s0 e).
Proof.
  intros H. destruct e as [c n|i [|] b| | |msg]; simpl; try exact H;
    unfold tls_update; rewrite (tls_at_same_tls s s0 i H);
    destruct (tls_at s0 i); simpl; rewrite ?H; reflexivity.
Qed.

Lemma run_effects_tls s s0 es :
  m_tls s = m_tls s0 -> m_tls (run_effects s es) = m_tls (run_effects s0 es).
Proof.
  unfold run_effects. revert s s0. induction es as [|e es IH]; intros s s0 H; simpl; [exact H|].
  apply IH. apply apply_effect_tls. exact H.
Qed.

Lemma run_effects_shape s es :
  m_threads (run_effects s es) = m_threads s /\
  m_numThreads (run_effects s es) = m_numThreads s /\
  m_bundles (run_effects s es) = m_bundles s /\
  m_emptyQueueBehavior (run_effects s es) = m_emptyQueueBehavior s.
Proof.
  unfold run_effects. revert s. induction es as [|e es IH]; intros s; simpl; [auto|].
  destruct (IH (apply_effect s e)) as (H1 & H2 & H3 & H4).
  rewrite H1, H2, H3, H4.
  destruct e as [c n|i [|] b| | |msg]; simpl; auto;
    unfold tls_update; destruct (tls_at s i); simpl; auto.
Qed.

Lemma run_effects_counters_first s cs es :
  forallb (fun e => match e with CounterAdd _ _ => true | _ => false end) cs = true ->
  m_tls (run_effects s (cs ++ es)) = m_tls (run_effects s es).
Proof.
  intros Hc. unfold run_effects. rewrite fold_left_app. apply run_effects_tls.
  revert s. induction cs as [|e cs IH]; intros s; simpl in *; [reflexivity|].
  destruct e; try discriminate. rewrite IH by exact Hc. reflexivity.
Qed.

Lemma apply_push s i k b :
  apply_effect s (QueuePush i k b) = tls_update s i (fun t => set_queue k t (b :: queue_of k t)).
Proof. destruct k; reflexivity. Qed.

Lemma run_pushes s i k t bs rest :
  tls_at s i = Some t -> inert rest = true ->
  tls_at (run_effects s (map (fun b => QueuePush i k b) bs ++ rest)) i =
  Some (set_queue k t (rev bs ++ queue_of k t)).
Proof.
  unfold run_effects. revert s t. induction bs as [|b bs IH]; intros s t Ht Hr;
    cbn [map app fold_left rev].
  - rewrite (run_effects_inert s rest Hr), Ht. destruct k, t; reflexivity.
  - rewrite apply_push. rewrite (IH _ (set_queue k t (b :: queue_of k t))).
    + destruct k; simpl; rewrite <- app_assoc; reflexivity.
    + exact (tls_at_update_eq s i (fun t => set_queue k t (b :: queue_of k t)) t Ht).
    + exact Hr.
Qed.

Lemma run_pushes_other s i j k bs rest :
  i <> j -> inert rest = true ->
  tls_at (run_effects s (map (fun b => QueuePush i k b) bs ++ rest)) j = tls_at s j.
Proof.
  unfold run_effects. revert s. induction bs as [|b bs IH]; intros s Hij Hr;
    cbn [map app fold_left].
  - rewrite (run_effects_inert s rest Hr). reflexivity.
  - rewrite apply_push, IH by assumption. apply tls_at_update_ne. exact Hij.
Qed.

Lemma push_tasks_map build i k tasks counter K :
  forallb (fun x => negb (is_null (Function x))) tasks = true ->
  push_tasks build i k tasks counter K =
  map (fun b => QueuePush i k b) (map (fun x => mkTaskBundle x counter) tasks) ++ K.
Proof.
  induction tasks as [|x tasks IH]; simpl; [reflexivity|].
  intros Hn. apply andb_prop in Hn as [Hx Hn].
  unfold FTL_ASSERT. rewrite Hx, IH by exact Hn. reflexivity.
Qed.

Lemma sleep_notify_inert s e :
  inert [e] = true -> inert (sleep_notify s e) = true.
Proof. intros H. unfold sleep_notify. destruct (EmptyQueueBehavior.eqb _ _); auto. Qed.

Lemma counter_effects_only counter n :
  forallb (fun e => match e with CounterAdd _ _ => true | _ => false end)
    (match counter with Some c => [CounterAdd c n] | None => [] end) = true.
Proof. destruct counter; reflexivity. Qed.

(** [AddTasks] with a known priority, given tasks that all have a
    non-null [Function], pushes the tasks, in array order, onto the submitting thread's queue for that
    priority: the queue then holds them last task first, above its old
    entries; no other thread's queues change. *)
Theorem AddTasks_pushes_in_reverse build s tid tasks priority counter k t :
  priority_queue priority = Some k ->
  tls_at s (submit_index s tid) = Some t ->
  forallb (fun x => negb (is_null (Function x))) tasks = true ->
  let s' := run_effects s (AddTasks build s tid tasks priority counter) in
  tls_at s' (submit_index s tid) =
    Some (set_queue k t (rev (map (fun x => mkTaskBundle x counter) tasks) ++ queue_of k t)) /\
  (forall j, j <> submit_index s tid -> tls_at s' j = tls_at s j).
Proof.
  intros Hk Ht Hb s'. unfold s', AddTasks.
  assert (Hp : match priority with
               | TaskPriority.High => push_tasks build (submit_index s tid) HiPri tasks counter
                                        (sleep_notify s NotifyAll)
               | TaskPriority.Normal => push_tasks build (submit_index s tid) LoPri tasks counter
                                          (sleep_notify s NotifyAll)
               | TaskPriority.Other _ => FTL_ASSERT build "Unknown task priority" false []
               end = push_tasks build (submit_index s tid) k tasks counter (sleep_notify s NotifyAll)).
  { destruct priority; simpl in Hk; try discriminate; injection Hk as <-; reflexivity. }
  rewrite Hp, push_tasks_map by exact Hb.
  split.
  - erewrite tls_at_same_tls; [|apply run_effects_counters_first, counter_effects_only].
    apply run_pushes; [exact Ht|apply sleep_notify_inert; reflexivity].
  - intros j Hj. erewrite tls_at_same_tls; [|apply run_effects_counters_first, counter_effects_only].
    apply run_pushes_other; [congruence|apply sleep_notify_inert; reflexivity].
Qed.

Lemma submit_index_member s tid :
  sched_wf s -> In tid (m_threads s) ->
  submit_index s tid = GetCurrentThreadIndex s tid /\
  exists t, tls_at s (GetCurrentThreadIndex s tid) = Some t.
Proof.
  intros Hwf Hin. destruct (GetCurrentThreadIndex_spec s tid Hwf) as [[_ [t Ht]]|[Hn _]];
    [|contradiction].
  split; [|eauto].
  unfold submit_index. destruct (N.eqb_spec (GetCurrentThreadIndex s tid) kInvalidIndex) as [He|];
    [|reflexivity].
  exfalso. rewrite He in Ht. destruct Hwf as (_ & Hl & Hn).
  rewrite tls_at_None in Ht; [discriminate|]. rewrite Hl. lia.
Qed.

Lemma submit_index_foreign s tid :
  sched_wf s -> ~ In tid (m_threads s) -> submit_index s tid = 0.
Proof.
  intros Hwf Hin. destruct (GetCurrentThreadIndex_spec s tid Hwf) as [[H _]|[_ [He _]]];
    [contradiction|].
  unfold submit_index. rewrite He. reflexivity.
Qed.

Lemma GetCurrentThreadIndex_run_effects s es tid :
  GetCurrentThreadIndex (run_effects s es) tid = GetCurrentThreadIndex s tid.
Proof.
  destruct (run_effects_shape s es) as (H1 & H2 & _).
  unfold GetCurrentThreadIndex. rewrite H1, H2. reflexivity.
Qed.

Lemma AddTask_effects build s tid task f priority counter :
  Function task = Some (UserFunction f) ->
  AddTask build s tid task priority counter =
  (match counter with Some c => [CounterAdd c 1] | None => [] end) ++
  (match priority_queue priority with
   | Some k => map (fun b => QueuePush (submit_index s tid) k b) [mkTaskBundle task counter]
   | None => []
   end) ++ sleep_notify s NotifyOne.
Proof.
  intros Hf. unfold AddTask, FTL_ASSERT. rewrite Hf. simpl.
  destruct build, priority; reflexivity.
Qed.

(** [AddTask] of a real task at [High] priority from one of the
    scheduler's threads, followed by [GetNextHiPriTask] on the same thread,
    gives back that task (the queue is LIFO for its owner), leaves every
    thread's queues as they were before the [AddTask], and pushes nothing
    back. *)
Theorem AddTask_then_GetNextHiPriTask build s tid task f counter :
  sched_wf s -> In tid (m_threads s) -> Function task = Some (UserFunction f) ->
  exists s'',
    GetNextHiPriTask (run_effects s (AddTask build s tid task TaskPriority.High counter)) tid =
      (s'', Some (mkTaskBundle task counter), []) /\
    forall i, tls_at s'' i = tls_at s i.
Proof.
  intros Hwf Hin Hf.
  destruct (submit_index_member s tid Hwf Hin) as [Hsub [t Ht]].
  set (me := GetCurrentThreadIndex s tid) in *.
  set (b := mkTaskBundle task counter).
  set (s1 := run_effects s (AddTask build s tid task TaskPriority.High counter)).
  assert (Htls : forall i, tls_at s1 i =
            tls_at (run_effects s (map (fun b => QueuePush me HiPri b) [b] ++
                                   sleep_notify s NotifyOne)) i).
  { intros i. unfold s1. rewrite (AddTask_effects _ _ _ _ f _ _ Hf). simpl priority_queue.
    rewrite Hsub. apply tls_at_same_tls.
    apply run_effects_counters_first, counter_effects_only. }
  assert (Ht1 : tls_at s1 me = Some (tls_set_hi t (b :: HiPriTaskQueue t))).
  { rewrite Htls. apply (run_pushes s me HiPri t [b]); [exact Ht|].
    apply sleep_notify_inert. reflexivity. }
  assert (Hme : GetCurrentThreadIndex s1 tid = me) by apply GetCurrentThreadIndex_run_effects.
  unfold GetNextHiPriTask. rewrite Hme. unfold hi_len. rewrite Ht1.
  simpl pop_own. rewrite Ht1. simpl Pop. cbv zeta.
  unfold TaskIsReadyToExecute at 1. simpl Function. rewrite Hf. simpl.
  eexists. split; [reflexivity|].
  intros i. rewrite (tls_at_same_tls _ (tls_update s1 me (fun t0 => tls_set_hi t0 (HiPriTaskQueue t))))
    by reflexivity.
  destruct (N.eq_dec i me) as [->|Hne].
  - rewrite (tls_at_update_eq _ _ _ _ Ht1), Ht. destruct t; reflexivity.
  - rewrite tls_at_update_ne by congruence. rewrite Htls.
    apply run_pushes_other; [congruence|apply sleep_notify_inert; reflexivity].
Qed.

Lemma push_tasks_index build i k tasks c K j k' b :
  In (QueuePush j k' b) (push_tasks build i k tasks c K) -> j = i \/ In (QueuePush j k' b) K.
Proof.
  induction tasks as [|x tasks IH]; simpl; [auto|].
  unfold FTL_ASSERT. destruct (negb _); [|destruct build; simpl; [intros [H|[]]; discriminate|tauto]].
  simpl. intros [H|H]; [injection H as -> _ _; auto|auto].
Qed.

(** A task added with [AddTask] or [AddTasks] from a thread that is not
    one of the scheduler's threads ([GetCurrentThreadIndex] gives
    [kInvalidIndex]) goes to thread 0's queues: every push the call makes
    is onto thread 0. *)
Theorem foreign_thread_submits_to_thread_0 s tid :
  sched_wf s -> ~ In tid (m_threads s) ->
  (forall build task priority counter j k b,
     In (QueuePush j k b) (AddTask build s tid task priority counter) -> j = 0) /\
  (forall build tasks priority counter j k b,
     In (QueuePush j k b) (AddTasks build s tid tasks priority counter) -> j = 0).
Proof.
  intros Hwf Hin. pose proof (submit_index_foreign s tid Hwf Hin) as H0.
  assert (Hn : forall e, In (QueuePush e.1 e.2.1 e.2.2) (sleep_notify s NotifyOne) \/
                         In (QueuePush e.1 e.2.1 e.2.2) (sleep_notify s NotifyAll) -> False).
  { intros e. unfold sleep_notify. destruct (EmptyQueueBehavior.eqb _ _); simpl;
      intuition discriminate. }
  split.
  - intros build task priority counter j k b H. unfold AddTask, FTL_ASSERT in H.
    assert (Hk : In (QueuePush j k b)
       ((match counter with Some c => [CounterAdd c 1] | None => [] end) ++
        (match priority with
         | TaskPriority.High => [QueuePush (submit_index s tid) HiPri (mkTaskBundle task counter)]
         | TaskPriority.Normal => [QueuePush (submit_index s tid) LoPri (mkTaskBundle task counter)]
         | TaskPriority.Other _ => []
         end) ++ sleep_notify s NotifyOne)).
    { destruct (negb _); [exact H|destruct build; simpl in H; intuition discriminate]. }
    rewrite !in_app_iff in Hk. destruct Hk as [Hk|[Hk|Hk]].
    + destruct counter; simpl in Hk; intuition discriminate.
    + rewrite H0 in Hk. destruct priority; simpl in Hk; intuition congruence.
    + exfalso. apply (Hn (j, (k, b))). simpl. auto.
  - intros build tasks priority counter j k b H. unfold AddTasks in H.
    apply in_app_iff in H. destruct H as [H|H].
    + destruct counter; simpl in H; intuition discriminate.
    + rewrite H0 in H.
      destruct priority.
      * destruct (push_tasks_index _ _ _ _ _ _ _ _ _ H) as [->|H']; [reflexivity|].
        exfalso. apply (Hn (j, (k, b))). simpl. auto.
      * destruct (push_tasks_index _ _ _ _ _ _ _ _ _ H) as [->|H']; [reflexivity|].
        exfalso. apply (Hn (j, (k, b))). simpl. auto.
      * unfold FTL_ASSERT in H. destruct build; simpl in H; intuition discriminate.
Qed.

(** ** [GetNextLoPriTask] *)

Lemma victims_cover start n j : n <> 0 -> j < n -> In j (victims start n).
Proof.
  intros Hn Hj. unfold victims. apply in_map_iff.
  exists (N.to_nat ((n - start mod n + j) mod n)). split.
  - rewrite N2Nat.id, N.Div0.add_mod_idemp_r.
    assert (Ha : start mod n < n) by (apply N.mod_lt; exact Hn).
    pose proof (N.Div0.div_mod start n) as Hd.
    replace (start + (n - start mod n + j)) with (j + (start / n + 1) * n).
    2:{ revert Ha Hd. generalize (start / n) (start mod n). intros q a Ha Hd.
        rewrite Hd at 1. rewrite N.mul_add_distr_r, N.mul_1_l, (N.mul_comm q n). lia. }
    rewrite N.Div0.mod_add. apply N.mod_small. exact Hj.
  - apply in_seq. pose proof (N.mod_lt (n - start mod n + j) n Hn) as Hm.
    revert Hm. generalize ((n - start mod n + j) mod n). intros x Hx. lia.
Qed.

Lemma concat_map_update_keep (g : ThreadLocalStorage -> list TaskBundle) s i f :
  (forall t, g (f t) = g t) ->
  concat (map g (m_tls (tls_update s i f))) = concat (map g (m_tls s)).
Proof.
  intros Hf. unfold tls_update. destruct (tls_at s i) as [t|] eqn:Ht; [|reflexivity].
  simpl. destruct (tls_at_inv _ _ _ Ht) as [_ Hl]. revert Hl.
  generalize (N.to_nat i). induction (m_tls s) as [|x l IH]; intros [|k] Hk;
    simpl in *; try discriminate.
  - injection Hk as ->. rewrite Hf. reflexivity.
  - rewrite IH by exact Hk. reflexivity.
Qed.

Lemma concat_map_update_take (g : ThreadLocalStorage -> list TaskBundle) s i f t :
  tls_at s i = Some t ->
  concat (map g (m_tls (tls_update s i f))) ++ g t ≡ₚ concat (map g (m_tls s)) ++ g (f t).
Proof.
  intros Ht. unfold tls_update. rewrite Ht. simpl.
  destruct (tls_at_inv _ _ _ Ht) as [_ Hl]. revert Hl.
  generalize (N.to_nat i). induction (m_tls s) as [|x l IH]; intros [|k] Hk;
    simpl in *; try discriminate.
  - injection Hk as ->. solve_Permutation.
  - rewrite <- !app_assoc. apply Permutation_app_head. apply IH. exact Hk.
Qed.

Lemma Steal_None q : Steal q = None -> q = [].
Proof.
  unfold Steal. destruct (rev q) as [|x r] eqn:E; [|discriminate].
  intros _. rewrite <- (rev_involutive q), E. reflexivity.
Qed.

Lemma Steal_Some q x q' : Steal q = Some (x, q') -> q = q' ++ [x].
Proof.
  unfold Steal. destruct (rev q) as [|y r] eqn:E; [discriminate|].
  intros H. injection H as <- <-. rewrite <- (rev_involutive q), E. reflexivity.
Qed.

Lemma steal_lo_round_spec vs s me s' r :
  steal_lo_round vs s me = (s', r) ->
  match r with
  | None => s' = s /\ forall v tv, In v vs -> v <> me -> tls_at s v = Some tv ->
                                   LoPriTaskQueue tv = []
  | Some x => exists v tv q', In v vs /\ v <> me /\ tls_at s v = Some tv /\
      LoPriTaskQueue tv = q' ++ [x] /\
      s' = tls_update (tls_update s v (fun t => tls_set_lo t q')) me (fun t =>
             mkTLS (CurrentFiber t) (OldFiber t) (OldFiberDestination t)
               (OldFiberStoredFlag t) (HiPriTaskQueue t) (LoPriTaskQueue t)
               (HiPriLastSuccessfulSteal t) v (FailedQueuePopAttempts t)
               (PinnedReadyFibers t))
  end.
Proof.
  induction vs as [|v vs IH]; intros H; simpl in H.
  - injection H as <- <-. split; [reflexivity|intros ? ? []].
  - destruct (N.eqb_spec v me) as [->|Hne].
    + specialize (IH H). destruct r as [x|].
      * destruct IH as (v' & tv & q' & Hin & HIH). exists v', tv, q'. simpl. auto.
      * destruct IH as [-> Hall]. split; [reflexivity|].
        intros v' tv [<-|Hin] Hv' Hv; [congruence|eauto].
    + destruct (tls_at s v) as [tv|] eqn:Hv.
      * destruct (Steal (LoPriTaskQueue tv)) as [[x q']|] eqn:Hs.
        -- injection H as <- <-. exists v, tv, q'. simpl.
           repeat split; auto. apply Steal_Some. exact Hs.
        -- specialize (IH H). destruct r as [x|].
           ++ destruct IH as (v' & tv' & q' & Hin & HIH). exists v', tv', q'. simpl. auto.
           ++ destruct IH as [-> Hall]. split; [reflexivity|].
              intros v' tv' [<-|Hin] Hv' Hv''; [|eauto].
              rewrite Hv in Hv''. injection Hv'' as <-. apply Steal_None. exact Hs.
      * specialize (IH H). destruct r as [x|].
        -- destruct IH as (v' & tv' & q' & Hin & HIH). exists v', tv', q'. simpl. auto.
        -- destruct IH as [-> Hall]. split; [reflexivity|].
           intros v' tv' [<-|Hin] Hv' Hv''; [congruence|eauto].
Qed.

Lemma tls_at_of_lookup s k t :
  m_tls s !! k = Some t -> tls_at s (N.of_nat k) = Some t.
Proof.
  intros Hk. pose proof (lookup_lt_Some _ _ _ Hk) as Hlt. unfold tls_at.
  replace (N.of_nat k <? N.of_nat (length (m_tls s))) with true
    by (symmetry; apply N.ltb_lt; lia).
  rewrite Nat2N.id. exact Hk.
Qed.

Lemma all_lo_nil s :
  (forall i t, tls_at s i = Some t -> LoPriTaskQueue t = []) -> all_lo s = [].
Proof.
  intros H. unfold all_lo.
  assert (Hl : forall k t, m_tls s !! k = Some t -> LoPriTaskQueue t = [])
    by (intros k t Hk; apply (H (N.of_nat k)), tls_at_of_lookup, Hk).
  induction (m_tls s) as [|x l IH]; [reflexivity|]. simpl.
  rewrite (Hl 0%nat x eq_refl). apply IH. intros k t Hk. apply (Hl (S k)). exact Hk.
Qed.

(** [GetNextLoPriTask] moves at most one low-priority task out of the
    queues, and the task it returns is exactly the one removed; the
    high-priority queues (as a multiset) and the fiber bundles are left
    alone. *)
Theorem GetNextLoPriTask_conserves s tid s' r :
  GetNextLoPriTask s tid = (s', r) ->
  all_lo s ≡ₚ all_lo s' ++ opt_list r /\ all_hi s' ≡ₚ all_hi s /\
  m_bundles s' = m_bundles s.
Proof.
  unfold GetNextLoPriTask. set (me := GetCurrentThreadIndex s tid).
  destruct (tls_at s me) as [t|] eqn:Ht.
  2:{ intros H. injection H as <- <-. simpl. rewrite app_nil_r. auto. }
  destruct (Pop (LoPriTaskQueue t)) as [[x q']|] eqn:Hp.
  - intros H. injection H as <- <-. simpl.
    destruct (LoPriTaskQueue t) as [|y q] eqn:Hq; [discriminate|].
    simpl in Hp. injection Hp as <- <-.
    split; [|split].
    + pose proof (concat_map_update_take LoPriTaskQueue s me (fun t => tls_set_lo t q) t Ht)
        as Hperm. fold (all_lo (tls_update s me (fun t => tls_set_lo t q))) in Hperm.
      fold (all_lo s) in Hperm. rewrite Hq in Hperm. simpl in Hperm.
      apply (Permutation_app_inv_r q). rewrite <- app_assoc. simpl.
      rewrite Hperm. solve_Permutation.
    + apply all_hi_update_keep. reflexivity.
    + apply m_bundles_tls_update.
  - intros H. pose proof (steal_lo_round_spec _ _ _ _ _ H) as Hs.
    destruct r as [x|].
    + destruct Hs as (v & tv & q' & _ & Hne & Hv & Hq & ->).
      set (f := fun t : ThreadLocalStorage =>
             mkTLS (CurrentFiber t) (OldFiber t) (OldFiberDestination t)
               (OldFiberStoredFlag t) (HiPriTaskQueue t) (LoPriTaskQueue t)
               (HiPriLastSuccessfulSteal t) v (FailedQueuePopAttempts t)
               (PinnedReadyFibers t)).
      split; [|split].
      * unfold all_lo. rewrite (concat_map_update_keep LoPriTaskQueue _ me f) by reflexivity.
        pose proof (concat_map_update_take LoPriTaskQueue s v (fun t => tls_set_lo t q') tv Hv)
          as Hperm. simpl in Hperm. rewrite Hq in Hperm.
        apply (Permutation_app_inv_r q'). rewrite <- Hperm. solve_Permutation.
      * rewrite (all_hi_update_keep _ me f) by reflexivity.
        apply all_hi_update_keep. reflexivity.
      * rewrite !m_bundles_tls_update. reflexivity.
    + destruct Hs as [-> _]. simpl. rewrite app_nil_r. auto.
Qed.

(** When the calling thread's own low-priority queue is empty and
    [GetNextLoPriTask] still finds a task, the task is the oldest entry (the
    steal end) of another thread's queue, that entry is gone from that queue,
    and the caller records the thread in [LoPriLastSuccessfulSteal]. *)
Theorem GetNextLoPriTask_steal_records_victim s tid t s' x :
  tls_at s (GetCurrentThreadIndex s tid) = Some t ->
  LoPriTaskQueue t = [] ->
  GetNextLoPriTask s tid = (s', Some x) ->
  exists v tv q, v <> GetCurrentThreadIndex s tid /\ tls_at s v = Some tv /\
    LoPriTaskQueue tv = q ++ [x] /\ tls_at s' v = Some (tls_set_lo tv q) /\
    exists t', tls_at s' (GetCurrentThreadIndex s tid) = Some t' /\
               LoPriLastSuccessfulSteal t' = v.
Proof.
  intros Ht Hq H. unfold GetNextLoPriTask in H. rewrite Ht, Hq in H. simpl in H.
  destruct (steal_lo_round_spec _ _ _ _ _ H) as (v & tv & q' & _ & Hne & Hv & Hq' & ->).
  exists v, tv, q'. repeat split; auto.
  - rewrite tls_at_update_ne by congruence.
    exact (tls_at_update_eq s v (fun t => tls_set_lo t q') tv Hv).
  - eexists. split.
    + apply tls_at_update_eq. rewrite tls_at_update_ne by congruence. exact Ht.
    + reflexivity.
Qed.

(** [GetNextLoPriTask] comes back empty-handed only when every
    low-priority queue of every thread is empty, and it then changes
    nothing. *)
Theorem GetNextLoPriTask_None_all_empty s tid t s' :
  sched_wf s ->
  tls_at s (GetCurrentThreadIndex s tid) = Some t ->
  GetNextLoPriTask s tid = (s', None) ->
  s' = s /\ all_lo s = [].
Proof.
  intros (_ & Hlen & _) Ht H. unfold GetNextLoPriTask in H. rewrite Ht in H.
  destruct (LoPriTaskQueue t) as [|y q] eqn:Hq; [|discriminate]. simpl in H.
  destruct (steal_lo_round_spec _ _ _ _ _ H) as [-> Hall]. split; [reflexivity|].
  apply all_lo_nil. intros j tj Hj.
  destruct (N.eq_dec j (GetCurrentThreadIndex s tid)) as [->|Hne].
  - congruence.
  - apply (Hall j tj); [|exact Hne|exact Hj].
    destruct (tls_at_inv _ _ _ Ht) as [Hme _]. destruct (tls_at_inv _ _ _ Hj) as [Hjl _].
    apply victims_cover; lia.
Qed.

(** ** [CleanUpOldFiber] *)

Lemma same_shape_CleanUpOldFiber s tid : same_shape s (CleanUpOldFiber s tid).
Proof.
  unfold CleanUpOldFiber. destruct (tls_at s _); [|apply same_shape_refl].
  destruct (OldFiberDestination t); [apply same_shape_refl|apply same_shape_update|].
  destruct (OldFiberStoredFlag t); [|apply same_shape_update].
  eapply same_shape_trans; [apply same_shape_bundles|apply same_shape_update].
Qed.

Lemma CleanUpOldFiber_done s tid t :
  tls_at s (GetCurrentThreadIndex s tid) = Some t ->
  OldFiberDestination t = FiberDestination.None -> CleanUpOldFiber s tid = s.
Proof. intros Ht Hd. unfold CleanUpOldFiber. rewrite Ht, Hd. reflexivity. Qed.

Lemma CleanUpOldFiber_tls s tid t :
  tls_at s (GetCurrentThreadIndex s tid) = Some t ->
  exists t', tls_at (CleanUpOldFiber s tid) (GetCurrentThreadIndex s tid) = Some t' /\
    OldFiberDestination t' = FiberDestination.None /\ CurrentFiber t' = CurrentFiber t /\
    (OldFiberDestination t <> FiberDestination.None -> OldFiber t' = None).
Proof.
  intros Ht. unfold CleanUpOldFiber. rewrite Ht.
  destruct (OldFiberDestination t) eqn:Hd.
  - exists t. rewrite Ht. repeat split; congruence.
  - eexists. split; [apply tls_at_update_eq; exact Ht|]. simpl. auto.
  - destruct (OldFiberStoredFlag t).
    + eexists. split; [apply tls_at_update_eq; exact Ht|]. simpl. auto.
    + eexists. split; [apply tls_at_update_eq; exact Ht|]. simpl. auto.
Qed.

(** [CleanUpOldFiber] is idempotent: once it has handed the previous fiber
    over (to the pool or to its waiting list) the destination is [None],
    so a second call changes nothing. *)
Theorem CleanUpOldFiber_idempotent s tid :
  CleanUpOldFiber (CleanUpOldFiber s tid) tid = CleanUpOldFiber s tid.
Proof.
  destruct (tls_at s (GetCurrentThreadIndex s tid)) as [t|] eqn:Ht.
  - destruct (CleanUpOldFiber_tls s tid t Ht) as (t' & Ht' & Hd & _).
    apply (CleanUpOldFiber_done _ _ t'); [|exact Hd].
    rewrite (GetCurrentThreadIndex_shape s) by apply same_shape_CleanUpOldFiber. exact Ht'.
  - unfold CleanUpOldFiber at 2. rewrite Ht. unfold CleanUpOldFiber. rewrite Ht. reflexivity.
Qed.

Lemma AddReadyFiber_shape s tid p b :
  same_shape s (AddReadyFiber s tid p b).1 /\ m_bundles (AddReadyFiber s tid p b).1 = m_bundles s.
Proof.
  unfold AddReadyFiber. destruct (p =? kNoThreadPinning); simpl;
    (split; [apply same_shape_update|apply m_bundles_tls_update]).
Qed.

(** The hand-over of [WaitForPredicate]: when the predicate is false the
    thread switches away from its fiber to a free fiber, and once the code
    running on the free fiber has called [CleanUpOldFiber] on the same
    thread, the new [ReadyFiberBundle] holds the waiting fiber with
    [FiberIsSwitched] set and its [SpinCount] of 15 untouched, and the
    thread's [OldFiber] and [OldFiberDestination] are cleared. *)
Theorem WaitForPredicate_then_CleanUpOldFiber s tid pin t s4 from to :
  tls_at s (GetCurrentThreadIndex s tid) = Some t ->
  WaitForPredicate s tid false pin = WaitSwitched s4 from to ->
  from = CurrentFiber t /\
  m_bundles (CleanUpOldFiber s4 tid) !! m_nextAddress s =
    Some (mkReadyFiberBundle (CurrentFiber t) true 15) /\
  exists t', tls_at (CleanUpOldFiber s4 tid) (GetCurrentThreadIndex s tid) = Some t' /\
    CurrentFiber t' = to /\ OldFiber t' = None /\
    OldFiberDestination t' = FiberDestination.None.
Proof.
  intros Ht H. unfold WaitForPredicate in H. rewrite Ht in H.
  set (me := GetCurrentThreadIndex s tid) in *.
  set (pinIdx := if pin || Nat.eqb (CurrentFiber t) m_mainFiber then me else kNoThreadPinning) in H.
  unfold CreateFiberBundle, GetNextFreeFiber in H. simpl in H.
  set (s2 := set_nextAddress (set_nextAddress (set_bundles s
               (<[m_nextAddress s := mkReadyFiberBundle (CurrentFiber t) false 15]> (m_bundles s)))
               (S (m_nextAddress s))) (S (S (m_nextAddress s)))) in H.
  destruct (AddReadyFiber s2 tid pinIdx (m_nextAddress s)) as [s3 es] eqn:Ha.
  injection H as <- <- <-.
  destruct (AddReadyFiber_shape s2 tid pinIdx (m_nextAddress s)) as [Hsh Hb].
  rewrite Ha in Hsh, Hb. simpl in Hsh, Hb.
  assert (Hs2 : same_shape s s2) by repeat split.
  assert (Hsh3 : same_shape s s3) by (eapply same_shape_trans; eauto).
  destruct (same_shape_tls_at s s3 me Hsh3 ltac:(rewrite Ht; eauto)) as [t3 Ht3].
  set (f := fun t0 : ThreadLocalStorage => tls_set_switch t0 (S (m_nextAddress s))
              (Some (CurrentFiber t)) FiberDestination.ToWaiting (Some (m_nextAddress s))).
  set (s4 := tls_update s3 me f).
  assert (Hme : GetCurrentThreadIndex s4 tid = me).
  { apply GetCurrentThreadIndex_shape. eapply same_shape_trans; [exact Hsh3|apply same_shape_update]. }
  assert (Ht4 : tls_at s4 me = Some (f t3)) by (apply tls_at_update_eq; exact Ht3).
  split; [reflexivity|].
  unfold CleanUpOldFiber. rewrite Hme, Ht4. simpl.
  split.
  - rewrite m_bundles_tls_update. simpl. unfold s4. rewrite m_bundles_tls_update, Hb.
    unfold s2. simpl. rewrite lookup_alter, lookup_insert_eq.
    destruct (decide _); [reflexivity|congruence].
  - eexists. split.
    + apply tls_at_update_eq. exact Ht4.
    + simpl. auto.
Qed.

(** ** [AddReadyFiber] *)

(** An unpinned [AddReadyFiber] from one of the scheduler's threads puts the
    dummy task on top of that thread's high-priority queue: if the bundle's
    fiber has already switched out and its [SpinCount] is not positive, the
    thread's next [GetNextHiPriTask] returns that dummy task, decrements the
    [SpinCount] and leaves every queue as it was before [AddReadyFiber]. *)
Theorem AddReadyFiber_then_GetNextHiPriTask s tid b r :
  sched_wf s -> In tid (m_threads s) ->
  m_bundles s !! b = Some r -> FiberIsSwitched r = true -> (SpinCount r <= 0)%Z ->
  exists s'',
    GetNextHiPriTask (AddReadyFiber s tid kNoThreadPinning b).1 tid =
      (s'', Some (dummy_bundle b), []) /\
    (forall i, tls_at s'' i = tls_at s i) /\
    m_bundles s'' = <[b := mkReadyFiberBundle (Fiber r) true (SpinCount r - 1)]> (m_bundles s).
Proof.
  intros Hwf Hin Hb Hsw Hsp.
  destruct (submit_index_member s tid Hwf Hin) as [Hsub [t Ht]].
  set (me := GetCurrentThreadIndex s tid) in *.
  unfold AddReadyFiber. rewrite N.eqb_refl. simpl fst. rewrite Hsub.
  change (mkTaskBundle (mkTask (Some ReadyFiberDummyTask) b) None) with (dummy_bundle b).
  set (s1 := tls_update s me (fun t => tls_set_hi t (Push (dummy_bundle b) (HiPriTaskQueue t)))).
  assert (Ht1 : tls_at s1 me = Some (tls_set_hi t (dummy_bundle b :: HiPriTaskQueue t)))
    by exact (tls_at_update_eq s me
                (fun t => tls_set_hi t (Push (dummy_bundle b) (HiPriTaskQueue t))) t Ht).
  assert (Hme : GetCurrentThreadIndex s1 tid = me)
    by (apply GetCurrentThreadIndex_shape, same_shape_update).
  assert (Hb1 : m_bundles s1 = m_bundles s) by apply m_bundles_tls_update.
    unfold GetNextHiPriTask. rewrite Hme. unfold hi_len. rewrite Ht1.
  simpl pop_own. rewrite Ht1. simpl Pop. cbv zeta.
  unfold TaskIsReadyToExecute at 1. simpl Function. simpl negb. cbv iota.
  rewrite m_bundles_tls_update, Hb1. simpl ArgData. rewrite Hb, Hsw. unfold spin_fetch_sub.
  replace (SpinCount r <=? 0)%Z with true by (symmetry; apply Z.leb_le; exact Hsp).
  cbv beta iota. eexists. split; [reflexivity|]. split.
  - intros i. unfold tls_at at 1. simpl.
    change (m_tls (tls_update s1 me (fun t0 => tls_set_hi t0 (HiPriTaskQueue t))))
      with (m_tls (set_bundles (tls_update s1 me (fun t0 => tls_set_hi t0 (HiPriTaskQueue t)))
                                 (m_bundles s))).
    fold (tls_at (set_bundles (tls_update s1 me (fun t0 => tls_set_hi t0 (HiPriTaskQueue t)))
                   (m_bundles s)) i).
    simpl. destruct (N.eq_dec i me) as [->|Hne].
    + change (tls_at (set_bundles (tls_update s1 me (fun t0 => tls_set_hi t0 (HiPriTaskQueue t)))
                       (m_bundles s)) me)
        with (tls_at (tls_update s1 me (fun t0 => tls_set_hi t0 (HiPriTaskQueue t))) me).
      rewrite (tls_at_update_eq _ _ _ _ Ht1), Ht. destruct t; reflexivity.
    + change (tls_at (set_bundles (tls_update s1 me (fun t0 => tls_set_hi t0 (HiPriTaskQueue t)))
                       (m_bundles s)) i)
        with (tls_at (tls_update s1 me (fun t0 => tls_set_hi t0 (HiPriTaskQueue t))) i).
      rewrite tls_at_update_ne by congruence. unfold s1.
      rewrite tls_at_update_ne by congruence. reflexivity.
  - simpl. rewrite Hsw. reflexivity.
Qed.

(** A [ReadyFiberBundle] added with [AddReadyFiber] pinned to a thread whose
    pinned list was empty is taken by that thread's next dispatch round when
    its fiber has switched out: the round resumes the bundle's fiber,
    releases the bundle and leaves the thread's [ThreadLocalStorage] as it
    was before [AddReadyFiber]. *)
Theorem AddReadyFiber_pinned_then_dispatch s tid tid' b r t :
  sched_wf s ->
  tls_at s (GetCurrentThreadIndex s tid') = Some t -> PinnedReadyFibers t = [] ->
  m_bundles s !! b = Some r -> FiberIsSwitched r = true ->
  exists p, dispatch_pick (AddReadyFiber s tid (GetCurrentThreadIndex s tid') b).1 tid' = Some p /\
    waitingFiber p = Some (Fiber r) /\ readyWaitingFibers p = true /\
    m_bundles (pick_state p) = delete b (m_bundles s) /\
    tls_at (pick_state p) (GetCurrentThreadIndex s tid') = Some t.
Proof.
  intros (_ & Hlen & Hmax) Ht Hpin Hb Hsw.
  set (p := GetCurrentThreadIndex s tid') in *.
  assert (Hp : (p =? kNoThreadPinning) = false).
  { apply N.eqb_neq. destruct (tls_at_inv _ _ _ Ht) as [Hl _].
    unfold kNoThreadPinning. unfold kInvalidIndex in Hmax. lia. }
  unfold AddReadyFiber. rewrite Hp. simpl fst.
  set (s1 := tls_update s p (fun t => tls_set_pinned t (PinnedReadyFibers t ++ [b]))).
  assert (Ht1 : tls_at s1 p = Some (tls_set_pinned t [b])).
  { unfold s1. rewrite (tls_at_update_eq _ _ _ _ Ht), Hpin. reflexivity. }
  assert (Hme : GetCurrentThreadIndex s1 tid' = p)
    by (apply GetCurrentThreadIndex_shape, same_shape_update).
  unfold dispatch_pick. rewrite Hme, Ht1. simpl PinnedReadyFibers.
    assert (Hb1 : m_bundles s1 = m_bundles s) by apply m_bundles_tls_update.
  rewrite Hb1. simpl scan_pinned. rewrite Hb, Hsw. cbv iota.
  eexists. split; [reflexivity|]. simpl. split; [reflexivity|]. split; [reflexivity|].
  split.
  - rewrite m_bundles_tls_update. reflexivity.
  - change (tls_at (tls_update (set_bundles s1 (delete b (m_bundles s))) p
                      (fun t0 => tls_set_pinned t0 [])) p = Some t).
    rewrite (tls_at_update_eq _ _ _ (tls_set_pinned t [b])) by exact Ht1.
    destruct t; simpl in *; subst; reflexivity.
Qed.

(** ** Spinning on a dummy task *)

(** A dummy task whose fiber has switched out is refused by exactly
    [SpinCount] successive [TaskIsReadyToExecute] tests (none when the count
    is not positive), each decrementing the count, and accepted by the test
    that follows. *)
Theorem TaskIsReadyToExecute_spin_countdown bs x r :
  is_dummy (Function (TaskToExecute x)) = true ->
  bs !! ArgData (TaskToExecute x) = Some r -> FiberIsSwitched r = true ->
  readiness_tests (S (Z.to_nat (SpinCount r))) bs x =
    repeat false (Z.to_nat (SpinCount r)) ++ [true].
Proof.
  intros Hd. remember (Z.to_nat (SpinCount r)) as n eqn:Hn.
  revert bs r Hn. induction n as [|n IH]; intros bs r Hn Hb Hsw.
  - simpl. unfold TaskIsReadyToExecute. rewrite Hd, Hb, Hsw. simpl.
    replace (SpinCount r <=? 0)%Z with true by (symmetry; apply Z.leb_le; lia). reflexivity.
  - change (readiness_tests (S (S n)) bs x) with
      (let '(ok, bs') := TaskIsReadyToExecute bs x in ok :: readiness_tests (S n) bs' x).
    unfold TaskIsReadyToExecute at 1. rewrite Hd, Hb, Hsw. unfold spin_fetch_sub.
    replace (SpinCount r <=? 0)%Z with false by (symmetry; apply Z.leb_gt; lia).
    simpl. f_equal.
    apply (IH _ (mkReadyFiberBundle (Fiber r) (FiberIsSwitched r) (SpinCount r - 1))).
    + simpl. lia.
    + apply lookup_insert_eq.
    + exact Hsw.
Qed.

(** ** One round of the dispatch loop *)

Lemma GetNextLoPriTask_shape s tid : same_shape s (GetNextLoPriTask s tid).1.
Proof.
  destruct (GetNextLoPriTask s tid) as [s' r] eqn:E. simpl.
  unfold GetNextLoPriTask in E. destruct (tls_at s _) as [t|]; [|injection E as <- _; apply same_shape_refl].
  destruct (Pop (LoPriTaskQueue t)) as [[x q']|].
  - injection E as <- _. apply same_shape_update.
  - pose proof (steal_lo_round_spec _ _ _ _ _ E) as Hs. destruct r as [x|].
    + destruct Hs as (v & tv & q & _ & _ & _ & _ & ->).
      eapply same_shape_trans; apply same_shape_update.
    + destruct Hs as [-> _]. apply same_shape_refl.
Qed.

Lemma dispatch_pick_props s tid t p :
  tls_at s (GetCurrentThreadIndex s tid) = Some t ->
  dispatch_pick s tid = Some p ->
  same_shape s (pick_state p) /\
  readyWaitingFibers p = match PinnedReadyFibers t with [] => false | _ => true end.
Proof.
  intros Ht H. unfold dispatch_pick in H. rewrite Ht in H.
  destruct (scan_pinned (m_bundles s) (PinnedReadyFibers t)) as [[bs w] rest].
  set (me := GetCurrentThreadIndex s tid) in *.
  set (s1 := tls_update (set_bundles s bs) me (fun t => tls_set_pinned t rest)) in H.
  assert (Hs1 : same_shape s s1)
    by (eapply same_shape_trans; [apply same_shape_bundles|apply same_shape_update]).
  destruct w as [f|].
  - injection H as <-. simpl. auto.
  - destruct (GetNextHiPriTask s1 tid) as [[s2 r] eff] eqn:Eh.
    assert (Hme1 : is_Some (tls_at s1 (GetCurrentThreadIndex s1 tid))).
    { rewrite (GetCurrentThreadIndex_shape s s1) by exact Hs1.
      apply (same_shape_tls_at s); [exact Hs1|exists t; exact Ht]. }
    destruct (GetNextHiPriTask_spec _ _ _ _ _ Hme1 Eh) as [Hs2 _].
    assert (Hs12 : same_shape s s2) by (eapply same_shape_trans; eauto).
    destruct r as [x|].
    + destruct (is_dummy (Function (TaskToExecute x))).
      * destruct (m_bundles s2 !! ArgData (TaskToExecute x)); [|discriminate].
        injection H as <-. simpl. split; [|reflexivity].
        eapply same_shape_trans; [exact Hs12|apply same_shape_bundles].
      * injection H as <-. simpl. auto.
    + pose proof (GetNextLoPriTask_shape s2 tid) as Hs3.
      destruct (GetNextLoPriTask s2 tid) as [s3 r']. injection H as <-. simpl.
      split; [eapply same_shape_trans; eauto|reflexivity].
Qed.

(** A round of the dispatch loop never sleeps on [ThreadSleepCV] nor
    yields the thread when the scheduler spins on empty queues, nor when the
    thread's list of pinned ready fibers was non-empty at the start of the
    round (the empty-queue policy only runs when that list was empty). *)
Theorem loop_body_never_sleeps_or_yields s tid t s' ev :
  tls_at s (GetCurrentThreadIndex s tid) = Some t ->
  m_emptyQueueBehavior s = EmptyQueueBehavior.Spin \/ PinnedReadyFibers t <> [] ->
  loop_body s tid = Some (s', ev) ->
  ~ In WaitSleepCV ev /\ ~ In YieldThreadCall ev.
Proof.
  intros Ht Hcase H. unfold loop_body in H.
  destruct (dispatch_pick s tid) as [p|] eqn:Ep; [|discriminate].
  destruct (dispatch_pick_props s tid t p Ht Ep) as [(_ & _ & _ & Hbeh) Hrw].
  destruct (tls_at (pick_state p) _) as [t1|]; [|discriminate].
  destruct (waitingFiber p) as [w|].
  { injection H as _ <-. simpl. intuition discriminate. }
  destruct (foundTask p).
  { destruct (nextTask p); [|discriminate]. injection H as _ <-. simpl. intuition discriminate. }
  destruct (readyWaitingFibers p) eqn:Erw.
  { injection H as _ <-. simpl. intuition discriminate. }
  destruct Hcase as [Hspin|Hpin].
  - rewrite Hbeh, Hspin in H. simpl in H. injection H as _ <-. simpl. intuition discriminate.
  - destruct (PinnedReadyFibers t); [congruence|discriminate].
Qed.

(** ** [Init] *)

Lemma create_workers_ok hw create k i sa s s2 :
  create_workers hw create k i sa s = (0%Z, s2) ->
  m_numThreads s2 = m_numThreads s /\ m_tls s2 = m_tls s /\
  m_emptyQueueBehavior s2 = m_emptyQueueBehavior s /\
  m_initialized s2 = m_initialized s /\
  length (m_threads s2) = length (m_threads s) /\
  (forall j, (j < N.to_nat i \/ N.to_nat i + k <= j)%nat ->
             m_threads s2 !! j = m_threads s !! j) /\
  (forall m, (m < k)%nat -> (N.to_nat i + m < length (m_threads s))%nat ->
     m_threads s2 !! (N.to_nat i + m)%nat =
       create (i + N.of_nat m) (if sa then Some ((i + N.of_nat m) mod hw) else None)).
Proof.
  revert i s. induction k as [|k IH]; intros i s H; simpl in H.
  - injection H as <-. repeat split; try reflexivity. intros m Hm. lia.
  - destruct (create i (if sa then Some (i mod hw) else None)) as [id|] eqn:Hc;
      [|discriminate].
    destruct (IH _ _ H) as (Hn & Htl & Hb & Hi & Hl & Hfr & Hset). simpl in *.
    rewrite length_insert in Hl.
    repeat split; try assumption.
    + intros j Hj. rewrite Hfr by lia. apply list_lookup_insert_ne. lia.
    + intros [|m] Hm Hlt.
      * rewrite Nat.add_0_r, Hfr by lia. rewrite N.add_0_r, Hc.
        apply list_lookup_insert_eq. lia.
      * replace (N.to_nat i + S m)%nat with (N.to_nat (i + 1) + m)%nat by lia.
        replace (i + N.of_nat (S m)) with (i + 1 + N.of_nat m) by lia.
        apply Hset; [lia|]. rewrite length_insert. lia.
Qed.

Lemma lookup_repeat_inv {A} (d x : A) n k : repeat d n !! k = Some x -> x = d.
Proof.
  revert k. induction n as [|n IH]; intros [|k] H; simpl in H; try discriminate.
  - injection H as <-. reflexivity.
  - exact (IH k H).
Qed.

Lemma concat_map_nil (g : ThreadLocalStorage -> list TaskBundle) l :
  (forall k t, l !! k = Some t -> g t = []) -> concat (map g l) = [].
Proof.
  induction l as [|x l IH]; intros H; [reflexivity|]. simpl.
  rewrite (H 0%nat x eq_refl). apply IH. intros k t Hk. apply (H (S k)). exact Hk.
Qed.

(** A successful [Init] with at least one thread registers the calling
    thread as thread 0, running the main fiber, and worker [i] (for
    [1 <= i < m_numThreads]) as the thread [CreateThread] returned for it;
    every task queue and every pinned list starts empty, and the scheduler
    state is well formed. *)
Theorem Init_success_state hw cur create s options s' :
  0 < worker_count hw options -> worker_count hw options <= kInvalidIndex ->
  Init hw cur create s options = (0%Z, s') ->
  sched_wf s' /\ m_initialized s' = true /\
  m_numThreads s' = worker_count hw options /\
  m_emptyQueueBehavior s' = Behavior options /\
  GetCurrentThreadIndex s' cur = 0 /\
  tls_at s' 0 = Some (tls_set_switch default_tls m_mainFiber None FiberDestination.None None) /\
  (forall i, 1 <= i < worker_count hw options ->
     m_threads s' !! N.to_nat i = create i (affinity_of hw options i)) /\
  all_hi s' = [] /\ all_lo s' = [] /\
  (forall i t, tls_at s' i = Some t -> PinnedReadyFibers t = []).
Proof.
  intros Hpos Hmax H. unfold Init in H.
  destruct (m_initialized s); [discriminate|].
  fold (worker_count hw options) in H. set (n := worker_count hw options) in *.
  match type of H with
  | context [create_workers hw create ?k ?i ?sa ?s1] =>
      destruct (create_workers hw create k i sa s1) as [z s2] eqn:Hcw
  end.
  destruct z as [|z|z]; [|discriminate|discriminate].
  injection H as <-.
  destruct (create_workers_ok _ _ _ _ _ _ _ Hcw) as (Hn & Htl & Hb & _ & Hl & Hfr & Hset).
  simpl in Hn, Htl, Hb, Hl.
  rewrite length_insert, repeat_length in Hl.
  set (mainTLS := tls_set_switch default_tls m_mainFiber None FiberDestination.None None).
  assert (Hn0 : (0 < N.to_nat n)%nat) by lia.
  assert (Htls_in : forall k t, m_tls s2 !! k = Some t -> t = mainTLS \/ t = default_tls).
  { intros k t Hk. rewrite Htl in Hk. destruct (decide (k = 0%nat)) as [->|Hne].
    - rewrite list_lookup_insert_eq in Hk by (rewrite repeat_length; lia).
      injection Hk as <-. auto.
    - rewrite list_lookup_insert_ne in Hk by lia. right.
      apply (lookup_repeat_inv _ _ _ _ Hk). }
  assert (Hth0 : m_threads s2 !! 0%nat = Some cur).
  { rewrite Hfr by (simpl; lia). simpl. apply list_lookup_insert_eq.
    rewrite repeat_length. lia. }
  assert (Htl_len : length (m_tls s2) = N.to_nat n)
    by (rewrite Htl; simpl; rewrite length_insert, repeat_length; reflexivity).
  unfold sched_wf. simpl. rewrite Hn, Hl, Htl_len.
  split; [repeat split; lia|]. split; [reflexivity|]. split; [reflexivity|].
  split; [exact Hb|].
  split.
  { unfold GetCurrentThreadIndex. simpl.
    destruct (m_threads s2) as [|c rest]; [discriminate|].
    simpl in Hth0. injection Hth0 as ->. simpl.
    replace (0 <? n) with true by (symmetry; apply N.ltb_lt; lia).
    rewrite Nat.eqb_refl. reflexivity. }
  split.
  { unfold tls_at. simpl. rewrite Htl_len.
    replace (0 <? N.of_nat (N.to_nat n)) with true by (symmetry; apply N.ltb_lt; lia).
    simpl. rewrite Htl. apply list_lookup_insert_eq. rewrite repeat_length. lia. }
  split.
  { intros i Hi. simpl.
    replace (N.to_nat i) with (N.to_nat 1 + (N.to_nat i - 1))%nat by lia.
      rewrite Hset; [|lia|simpl; rewrite length_insert, repeat_length; lia].
    replace (1 + N.of_nat (N.to_nat i - 1)) with i by lia. reflexivity. }
  split; [|split].
  - unfold all_hi. simpl. apply concat_map_nil. intros k t Hk.
    destruct (Htls_in k t Hk) as [->| ->]; reflexivity.
  - unfold all_lo. simpl. apply concat_map_nil. intros k t Hk.
    destruct (Htls_in k t Hk) as [->| ->]; reflexivity.
  - intros i t Hi. destruct (tls_at_inv _ _ _ Hi) as [_ Hk]. simpl in Hk.
    destruct (Htls_in _ t Hk) as [->| ->]; reflexivity.
Qed.

(** ** Witnesses *)

Lemma null_function_asserted_in_debug_not_enqueued_witness :
  Function (mkTask None 0) = None /\
  pushed (AddTask Release example_scheduler 101 (mkTask None 0) TaskPriority.High
            (Some 7%nat)) = [] /\
  returns_normally (AddTasks Debug example_scheduler 101
                      [mkTask (Some (UserFunction 1)) 0; mkTask None 0]
                      TaskPriority.High (Some 7%nat)) = false.
Proof.
  assert (H : Function (mkTask None 0) = None) by reflexivity.
  pose proof (null_function_asserted_in_debug_not_enqueued Release example_scheduler 101
                (mkTask None 0) TaskPriority.High (Some 7%nat)
                [mkTask (Some (UserFunction 1)) 0; mkTask None 0] H) as (_ & H2 & _).
  pose proof (null_function_asserted_in_debug_not_enqueued Debug example_scheduler 101
                (mkTask None 0) TaskPriority.High (Some 7%nat)
                [mkTask (Some (UserFunction 1)) 0; mkTask None 0] H) as (_ & _ & H3 & _).
  split; [exact H|split; [exact H2|]].
  apply H3. simpl. right. left. reflexivity.
Defined.

Lemma unknown_priority_counter_added_nothing_pushed_witness :
  example_scheduler.(m_counters) !! 7%nat = Some (mkCounter 3 0) /\
  pushed (AddTask Release example_scheduler 101 (mkTask (Some (UserFunction 1)) 0)
            (TaskPriority.Other 5) (Some 7%nat)) = [].
Proof.
  assert (Hk : example_scheduler.(m_counters) !! 7%nat = Some (mkCounter 3 0))
    by reflexivity.
  assert (Hf : Function (mkTask (Some (UserFunction 1)) 0) <> None) by discriminate.
  split; [exact Hk|].
  exact (proj1 (proj1 (unknown_priority_counter_added_nothing_pushed Release
                         example_scheduler 101 7 (mkCounter 3 0) 5
                         (mkTask (Some (UserFunction 1)) 0) [] Hk Hf))).
Defined.

Lemma Init_return_codes_witness :
  m_initialized uninitialized_scheduler = false /\
  fst (Init 8 100 create_ok uninitialized_scheduler example_options) = 0%Z /\
  fst (Init 8 100 create_fails_at_2 uninitialized_scheduler example_options) =
    kInitErrorFailedToCreateWorkerThread.
Proof.
  assert (H : m_initialized uninitialized_scheduler = false) by reflexivity.
  split; [exact H|]. split.
  - refine (proj1 (proj1 (proj2 (Init_return_codes 8 100 create_ok
                                   uninitialized_scheduler example_options) H) _)).
    intros i _. unfold create_ok. discriminate.
  - apply (proj2 (proj2 (Init_return_codes 8 100 create_fails_at_2
                            uninitialized_scheduler example_options) H)).
    exists 2. split; [unfold worker_count; simpl; lia | reflexivity].
Defined.

Lemma current_thread_tls_access_in_bounds_iff_witness :
  sched_wf example_scheduler /\
  (GetCurrentFiber example_scheduler 101 <> None <-> In 101%nat (m_threads example_scheduler)) /\
  GetCurrentThreadIndex example_scheduler 55 = kInvalidIndex.
Proof.
  assert (H : sched_wf example_scheduler)
    by (split; [reflexivity|split; [reflexivity|unfold kInvalidIndex; simpl; lia]]).
  split; [exact H|]. split.
  - exact (proj1 (current_thread_tls_access_in_bounds_iff example_scheduler 101 H)).
  - apply (proj2 (current_thread_tls_access_in_bounds_iff example_scheduler 55 H)).
    simpl. lia.
Defined.

Lemma TaskIsReadyToExecute_and_GetNextHiPriTask_witness :
  match GetNextHiPriTask search_scheduler 100 with
  | (s', r, es) =>
      r = Some (mkTaskBundle (mkTask (Some (UserFunction 1)) 0) None) /\
      all_hi search_scheduler ≡ₚ all_hi s' ++ opt_list r
  end.
Proof.
  destruct (GetNextHiPriTask search_scheduler 100) as [[s' r] es] eqn:E.
  split.
  - vm_compute in E. injection E as _ <- _. reflexivity.
  - apply (TaskIsReadyToExecute_and_GetNextHiPriTask search_scheduler 100 s' r es);
      [vm_compute; eexists; reflexivity|exact E].
Defined.


Lemma WaitForCounterInternal_outcomes_witness :
  match WaitForCounterInternal (fun s _ _ _ _ => (false, s)) example_scheduler 100 7 0
          false [] with
  | WaitSwitched _ from to => from = 3%nat /\ to = 11%nat
  | _ => False
  end.
Proof.
  pose proof (WaitForCounterInternal_outcomes (fun s _ _ _ _ => (false, s))
    example_scheduler 100 7 0 false [] (mkCounter 3 0)
    (tls_set_switch default_tls 3 None FiberDestination.None None)
    eq_refl eq_refl (fun _ _ _ _ _ => eq_refl)) as [_ H].
  vm_compute in H |- *.
  destruct H as (_ & Hfrom & _).
  split; [exact (eq_sym Hfrom)|reflexivity].
Defined.


Lemma AddTasks_pushes_in_reverse_witness :
  tls_at (run_effects example_scheduler
            (AddTasks Debug example_scheduler 101
               [mkTask (Some (UserFunction 1)) 0; mkTask (Some (UserFunction 2)) 0]
               TaskPriority.Normal (Some 7%nat))) 1 =
  Some (set_queue LoPri (tls_set_switch default_tls 4 None FiberDestination.None None)
          [mkTaskBundle (mkTask (Some (UserFunction 2)) 0) (Some 7%nat);
           mkTaskBundle (mkTask (Some (UserFunction 1)) 0) (Some 7%nat)]).
Proof.
  exact (proj1 (AddTasks_pushes_in_reverse Debug example_scheduler 101
                  [mkTask (Some (UserFunction 1)) 0; mkTask (Some (UserFunction 2)) 0]
                  TaskPriority.Normal (Some 7%nat) LoPri
                  (tls_set_switch default_tls 4 None FiberDestination.None None)
                  eq_refl eq_refl eq_refl)).
Defined.

Lemma AddTask_then_GetNextHiPriTask_witness :
  exists s'',
    GetNextHiPriTask (run_effects example_scheduler
       (AddTask Debug example_scheduler 100 (mkTask (Some (UserFunction 1)) 0)
          TaskPriority.High (Some 7%nat))) 100 =
      (s'', Some (mkTaskBundle (mkTask (Some (UserFunction 1)) 0) (Some 7%nat)), []) /\
    forall i, tls_at s'' i = tls_at example_scheduler i.
Proof.
  apply (AddTask_then_GetNextHiPriTask Debug example_scheduler 100
           (mkTask (Some (UserFunction 1)) 0) 1 (Some 7%nat)).
  - split; [reflexivity|split; [reflexivity|unfold kInvalidIndex; simpl; lia]].
  - simpl. auto.
  - reflexivity.
Defined.

Lemma foreign_thread_submits_to_thread_0_witness :
  Forall (fun e => match e with QueuePush j _ _ => j = 0 | _ => True end)
    (AddTasks Release example_scheduler 55
       [mkTask (Some (UserFunction 1)) 0; mkTask (Some (UserFunction 2)) 0]
       TaskPriority.High (Some 7%nat)).
Proof.
  apply Forall_forall. intros e He. destruct e as [|j k b| | |]; try exact I.
  refine (proj2 (foreign_thread_submits_to_thread_0 example_scheduler 55 _ _) _ _ _ _ j k b (proj1 (list_elem_of_In _ _) He)).
  - split; [reflexivity|split; [reflexivity|unfold kInvalidIndex; simpl; lia]].
  - simpl. intros [H|[H|[]]]; lia.
Defined.

Lemma GetNextLoPriTask_conserves_witness :
  all_lo steal_scheduler ≡ₚ
    all_lo (GetNextLoPriTask steal_scheduler 100).1 ++
    opt_list (GetNextLoPriTask steal_scheduler 100).2.
Proof.
  exact (proj1 (GetNextLoPriTask_conserves steal_scheduler 100
                  (GetNextLoPriTask steal_scheduler 100).1
                  (GetNextLoPriTask steal_scheduler 100).2 ltac:(vm_compute; reflexivity))).
Defined.

Lemma GetNextLoPriTask_steal_records_victim_witness :
  exists v tv q, v <> GetCurrentThreadIndex steal_scheduler 100 /\
    tls_at steal_scheduler v = Some tv /\
    LoPriTaskQueue tv = q ++ [mkTaskBundle (mkTask (Some (UserFunction 3)) 0) None] /\
    tls_at (GetNextLoPriTask steal_scheduler 100).1 v = Some (tls_set_lo tv q) /\
    exists t', tls_at (GetNextLoPriTask steal_scheduler 100).1
                 (GetCurrentThreadIndex steal_scheduler 100) = Some t' /\
               LoPriLastSuccessfulSteal t' = v.
Proof.
  apply (GetNextLoPriTask_steal_records_victim steal_scheduler 100
           (tls_set_switch default_tls 3 None FiberDestination.None None)).
  - vm_compute. reflexivity.
  - reflexivity.
  - vm_compute. reflexivity.
Defined.

Lemma GetNextLoPriTask_None_all_empty_witness :
  (GetNextLoPriTask example_scheduler 100).1 = example_scheduler /\
  all_lo example_scheduler = [].
Proof.
  apply (GetNextLoPriTask_None_all_empty example_scheduler 100
           (tls_set_switch default_tls 3 None FiberDestination.None None)).
  - split; [reflexivity|split; [reflexivity|unfold kInvalidIndex; simpl; lia]].
  - vm_compute. reflexivity.
  - vm_compute. reflexivity.
Defined.

Lemma WaitForPredicate_then_CleanUpOldFiber_witness :
  match WaitForPredicate example_scheduler 100 false false with
  | WaitSwitched s4 from to =>
      m_bundles (CleanUpOldFiber s4 100) !! 10%nat = Some (mkReadyFiberBundle 3 true 15)
  | _ => False
  end.
Proof.
  destruct (WaitForPredicate example_scheduler 100 false false) as [|
           |s4 from to|] eqn:E; try (vm_compute in E; discriminate).
  exact (proj1 (proj2 (WaitForPredicate_then_CleanUpOldFiber example_scheduler 100 false
          (tls_set_switch default_tls 3 None FiberDestination.None None) s4 from to
          eq_refl E))).
Defined.

Lemma AddReadyFiber_then_GetNextHiPriTask_witness :
  exists s'',
    GetNextHiPriTask (AddReadyFiber switched_bundle_scheduler 100 kNoThreadPinning 12).1 100 =
      (s'', Some (dummy_bundle 12), []) /\
    (forall i, tls_at s'' i = tls_at switched_bundle_scheduler i) /\
    m_bundles s'' = <[12%nat := mkReadyFiberBundle 6 true (0 - 1)]>
                      (m_bundles switched_bundle_scheduler).
Proof.
  apply (AddReadyFiber_then_GetNextHiPriTask switched_bundle_scheduler 100 12
           (mkReadyFiberBundle 6 true 0)).
  - split; [reflexivity|split; [reflexivity|unfold kInvalidIndex; simpl; lia]].
  - simpl. auto.
  - reflexivity.
  - reflexivity.
  - simpl. lia.
Defined.

Lemma AddReadyFiber_pinned_then_dispatch_witness :
  exists p, dispatch_pick (AddReadyFiber switched_bundle_scheduler 101
                             (GetCurrentThreadIndex switched_bundle_scheduler 100) 12).1 100 =
              Some p /\
    waitingFiber p = Some 6%nat /\ readyWaitingFibers p = true /\
    m_bundles (pick_state p) = delete 12%nat (m_bundles switched_bundle_scheduler) /\
    tls_at (pick_state p) (GetCurrentThreadIndex switched_bundle_scheduler 100) =
      Some (tls_set_switch default_tls 3 None FiberDestination.None None).
Proof.
  exact (AddReadyFiber_pinned_then_dispatch switched_bundle_scheduler 101 100 12
           (mkReadyFiberBundle 6 true 0)
           (tls_set_switch default_tls 3 None FiberDestination.None None)
           ltac:(split; [reflexivity|split; [reflexivity|unfold kInvalidIndex; simpl; lia]])
           eq_refl eq_refl eq_refl eq_refl).
Defined.

Lemma TaskIsReadyToExecute_spin_countdown_witness :
  readiness_tests 3 (<[12%nat := mkReadyFiberBundle 6 true 2]> ∅) (dummy_bundle 12) =
    [false; false; true].
Proof.
  exact (TaskIsReadyToExecute_spin_countdown (<[12%nat := mkReadyFiberBundle 6 true 2]> ∅)
           (dummy_bundle 12) (mkReadyFiberBundle 6 true 2) eq_refl eq_refl eq_refl).
Defined.

Lemma loop_body_never_sleeps_or_yields_witness :
  match loop_body spin_scheduler 100 with
  | Some (s', ev) => ~ In WaitSleepCV ev /\ ~ In YieldThreadCall ev
  | None => False
  end.
Proof.
  destruct (loop_body spin_scheduler 100) as [[s' ev]|] eqn:E;
    [|vm_compute in E; discriminate].
  exact (loop_body_never_sleeps_or_yields spin_scheduler 100
           (tls_set_switch default_tls 3 None FiberDestination.None None) s' ev
           eq_refl (or_introl eq_refl) E).
Defined.

Lemma Init_success_state_witness :
  GetCurrentThreadIndex (snd (Init 8 100 create_ok uninitialized_scheduler example_options)) 100 = 0 /\
  m_threads (snd (Init 8 100 create_ok uninitialized_scheduler example_options)) !! 3%nat =
    create_ok 3 (affinity_of 8 example_options 3).
Proof.
  destruct (Init_success_state 8 100 create_ok uninitialized_scheduler example_options
              (snd (Init 8 100 create_ok uninitialized_scheduler example_options))
              ltac:(reflexivity) ltac:(unfold kInvalidIndex; vm_compute; discriminate)
              ltac:(vm_compute; reflexivity))
    as (_ & _ & _ & _ & H0 & _ & Hw & _).
  split; [exact H0|]. exact (Hw 3 ltac:(vm_compute; split; [discriminate|reflexivity])).
Defined.
